(** * access-rules: a reverse-proxying Cloudflare Worker

    Shallow embedding of [src/workers.js] and [src/src/index.js] and the
    properties of their request/response pipeline.

    Conventions of the model.
    - A JavaScript string is a [string]; every character stands for one
      UTF-16 code unit below 256.  On that range [String.prototype.trim]
      strips the code units 9-13, 32 and 160, and [toLowerCase] maps A-Z
      and the Latin-1 capitals 192-222 (215 excepted) 32 places up.  The
      Chinese message literals are kept as the bytes of the source file;
      they are only compared and tested for emptiness.
    - A JavaScript Number that holds an integer is a [Z]; [NaN] is [None].
      [parseInt] returns the mathematical value of the digits it reads (the
      rounding to a double of values beyond 2^53 is not modelled; such
      values never equal an HTTP status code).
    - [undefined] and [null] are [None]; a value is truthy when it is a
      non-empty string.
    - A [Headers] object is a finite map from lower-cased names to values.
    - A [Response] is a record.  [new Response(body, init)] is the record
      together with the verdict of the constructor ([construct]): a
      RangeError for a status outside 200..599, a TypeError for a body
      given with a null-body status (Fetch standard; the runtime's
      WebSocket extension for status 101 is not modelled).  Setting headers
      afterwards never throws, so a function that builds one [Response]
      and edits its headers is written as the record it aims at
      ([generateErrorPage], [transform]) and the handler passes that record
      through [construct].
    - A [URL] is a record.  The port and protocol setters replace their
      field (inbound URLs of a worker are http or https).  The hostname
      setter runs the host parser of the URL standard, which may
      normalise or refuse its argument: the hostname field records the
      call ([HostSet value previous]) and nothing is claimed about the
      host that results.
    - The template literal of the error page is represented by the values
      of its [${...}] holes, in order; the static markup between the holes
      is fixed per source file.
    - [await fetch(url, init)] is the one effect of the program; a handler
      is a tree whose only node is that call. *)

From Stdlib Require Import ZArith Ascii String List Bool Lia.
From stdpp Require Import gmap strings pretty.
Import ListNotations.

Local Open Scope Z_scope.

(** ** JavaScript string primitives *)

Module JS.

(** WhiteSpace and LineTerminator code units below 256. *)
Definition isWhiteSpace (c : ascii) : bool :=
  let n := nat_of_ascii c in
  ((9 <=? n) && (n <=? 13) || (n =? 32) || (n =? 160))%nat.

Fixpoint trimStart (s : string) : string :=
  match s with
  | EmptyString => EmptyString
  | String c s' => if isWhiteSpace c then trimStart s' else s
  end.

Fixpoint trimEnd (s : string) : string :=
  match s with
  | EmptyString => EmptyString
  | String c s' =>
      match trimEnd s' with
      | EmptyString => if isWhiteSpace c then EmptyString else String c EmptyString
      | r => String c r
      end
  end.

(** [String.prototype.trim] *)
Definition trim (s : string) : string := trimEnd (trimStart s).

Definition toLowerChar (c : ascii) : ascii :=
  let n := nat_of_ascii c in
  if ((65 <=? n) && (n <=? 90)
      || (192 <=? n) && (n <=? 222) && negb (n =? 215))%nat
  then ascii_of_nat (n + 32) else c.

(** [String.prototype.toLowerCase] *)
Fixpoint toLowerCase (s : string) : string :=
  match s with
  | EmptyString => EmptyString
  | String c s' => String (toLowerChar c) (toLowerCase s')
  end.

(** [s.startsWith(t)] *)
Definition startsWith (s t : string) : bool := String.prefix t s.

(** [s.includes(t)]: [t] occurs somewhere in [s]. *)
Fixpoint includes (s t : string) : bool :=
  String.prefix t s ||
  match s with
  | EmptyString => false
  | String _ s' => includes s' t
  end.

(** [s.split(sep)] for a separator of one code unit. *)
Fixpoint split (sep : ascii) (s : string) : list string :=
  match s with
  | EmptyString => [EmptyString]
  | String c s' =>
      if Ascii.eqb c sep then EmptyString :: split sep s'
      else match split sep s' with
           | [] => [String c EmptyString]
           | t :: ts => String c t :: ts
           end
  end.

(** The value of a code unit as a digit of [parseInt] (bases up to 36). *)
Definition digitValue (c : ascii) : option Z :=
  let n := Z.of_nat (nat_of_ascii c) in
  if (48 <=? n) && (n <=? 57) then Some (n - 48)
  else if (97 <=? n) && (n <=? 122) then Some (n - 87)
  else if (65 <=? n) && (n <=? 90) then Some (n - 55)
  else None.

(** The longest prefix of [s] made of digits of base [R], as digit values. *)
Fixpoint radixDigits (R : Z) (s : string) : list Z :=
  match s with
  | EmptyString => []
  | String c s' =>
      match digitValue c with
      | Some d => if d <? R then d :: radixDigits R s' else []
      | None => []
      end
  end.

Definition digitsValue (R : Z) (ds : list Z) : Z :=
  fold_left (fun acc d => acc * R + d) ds 0.

(** Steps of [parseInt]: the sign, then the hexadecimal prefix. *)
Definition stripSign (s : string) : Z * string :=
  match s with
  | String "-"%char r => (-1, r)
  | String "+"%char r => (1, r)
  | _ => (1, s)
  end.

Definition stripPrefix (s : string) : Z * string :=
  match s with
  | String "0"%char (String c r) =>
      if Ascii.eqb c "x"%char || Ascii.eqb c "X"%char then (16, r) else (10, s)
  | _ => (10, s)
  end.

(** [parseInt(string)] with the radix argument left out (ECMA-262,
    sec. parseInt): leading white space and a sign are stripped, a [0x] or
    [0X] prefix selects base 16, and the longest prefix of digits is read;
    [NaN] ([None]) when that prefix is empty. *)
Definition parseInt (inputString : string) : option Z :=
  let '(sign, s1) := stripSign (trimStart inputString) in
  let '(R, s2) := stripPrefix s1 in
  match radixDigits R s2 with
  | [] => None
  | ds => Some (sign * digitsValue R ds)
  end.

(** Truthiness of a value that is a string, [undefined] or [null]. *)
Definition truthy (v : option string) : bool :=
  match v with
  | Some s => negb (String.eqb s "")
  | None => false
  end.

End JS.

(** [Array.prototype.includes] on numbers and on strings. *)
Definition includesNum (l : list Z) (x : Z) : bool := existsb (Z.eqb x) l.
Definition includesStr (l : list string) (x : string) : bool :=
  existsb (String.eqb x) l.

(** ** Data model of the platform objects *)

(** A [Headers] object. *)
Module Headers.

Definition get (name : string) (h : gmap string string) : option string :=
  h !! JS.toLowerCase name.

Definition set (name value : string) (h : gmap string string)
  : gmap string string :=
  <[JS.toLowerCase name := value]> h.

Definition delete (name : string) (h : gmap string string)
  : gmap string string :=
  base.delete (JS.toLowerCase name) h.

End Headers.

(** A body is [null] ([None]), a stream owned by the runtime, or the text
    of a rendered template given by the values of its holes. *)
Inductive BodyContent : Type :=
| Stream (ref : nat)
| Html (holes : list string).

(** The host of a URL: as parsed from the inbound request, or what the
    hostname setter makes of [value] on a URL whose host was [previous]. *)
Inductive Host : Type :=
| HostOf (name : string)
| HostSet (value : string) (previous : Host).

Record URL : Type := mkURL {
  protocol : string;
  hostname : Host;
  port : string;
  pathname : string;
  search : string;
  hash : string
}.

Record Request : Type := mkRequest {
  req_url : URL;
  req_method : string;
  req_headers : gmap string string;
  req_body : option BodyContent
}.

(** The [requestInit] object literal; [init_body] is [None] when the
    property was never assigned. *)
Record RequestInit : Type := mkRequestInit {
  init_method : string;
  init_headers : gmap string string;
  init_redirect : string;
  init_body : option (option BodyContent)
}.

Record ReqData : Type := mkReqData {
  url : URL;
  requestInit : RequestInit
}.

Record Response : Type := mkResponse {
  status : Z;
  statusText : string;
  headers : gmap string string;
  body : option BodyContent
}.

(** What evaluating an expression that may throw comes to. *)
Inductive JSError : Type := RangeError | TypeError.

Inductive Completion (A : Type) : Type :=
| Normal (a : A)
| Thrown (e : JSError).
Arguments Normal {A} a.
Arguments Thrown {A} e.

(** The null body statuses of the Fetch standard. *)
Definition nullBodyStatus (code : Z) : bool :=
  includesNum [101; 103; 204; 205; 304] code.

(** The verdict of [new Response(body, init)] on the response asked for:
    the status must lie in 200..599, and a body that is not [null] must
    not come with a null body status. *)
Definition construct (r : Response) : Completion Response :=
  if negb ((200 <=? status r) && (status r <=? 599)) then Thrown RangeError
  else
    match body r with
    | Some _ => if nullBodyStatus (status r) then Thrown TypeError else Normal r
    | None => Normal r
    end.

(** The environment bindings the worker reads. *)
Record Env : Type := mkEnv {
  GET_URL : option string;
  NORMAL_STATUS_CODES : option string;
  FORCE_INLINE_TYPES : option string;
  FORCE_DOWNLOAD_TYPES : option string
}.

(** ** The network effect *)

(** An [async] function whose only suspension point is [await fetch]: it
    returns, throws, or awaits the client and goes on. *)
Inductive Prog (A : Type) : Type :=
| Ret (a : A)
| Throw (e : JSError)
| Fetch (u : URL) (init : RequestInit) (k : Response -> Prog A).
Arguments Ret {A} a.
Arguments Throw {A} e.
Arguments Fetch {A} u init k.

(** [return] of an expression that may throw. *)
Definition settle {A} (c : Completion A) : Prog A :=
  match c with
  | Normal a => Ret a
  | Thrown e => Throw e
  end.

(** The HTTP client: [None] is a transport failure (a rejected promise). *)
Definition Client : Type := URL -> RequestInit -> option Response.

(** Running a handler against a client: the settled value ([None] when the
    promise rejects, by a throw or by a failure of the client) and the
    calls made to the client, oldest first. *)
Fixpoint run {A} (net : Client) (p : Prog A)
  : option A * list (URL * RequestInit) :=
  match p with
  | Ret a => (Some a, [])
  | Throw _ => (None, [])
  | Fetch u init k =>
      match net u init with
      | None => (None, [(u, init)])
      | Some r => let '(v, calls) := run net (k r) in (v, (u, init) :: calls)
      end
  end.

(** ** src/workers.js *)

Module Workers.

Definition CHARSET_DEFAULT : string := "utf-8".
Definition NULL_BODY_STATUS_CODES : list Z := [101; 204; 205; 304].

Definition parseNormalStatusCodes (statusCodesStr : option string) : list Z :=
  match statusCodesStr with
  | None => [200]
  | Some str =>
      if negb (JS.truthy statusCodesStr) then [200]
      else
        omap (fun code => code)
          (map (fun code => JS.parseInt (JS.trim code)) (JS.split "," str))
  end.

Definition parseMimeList (mimeStr : option string) : list string :=
  match mimeStr with
  | None => []
  | Some str =>
      if negb (JS.truthy mimeStr) then []
      else
        filter (fun t => t ≠ "")
          (map (fun t => JS.toLowerCase (JS.trim t)) (JS.split "," str))
  end.

Definition removeHeaders : list string :=
  ["host"; "cf-connecting-ip"; "cf-ipcountry"; "cf-ray"; "cf-visitor"; "cdn-loop"].

Definition buildReq (request : Request) (env : Env) : option ReqData :=
  match GET_URL env with
  | None => None
  | Some targetHost =>
      if negb (JS.truthy (GET_URL env)) then None
      else
        let u := req_url request in
        let u := mkURL (protocol u) (HostSet targetHost (hostname u)) (port u)
                   (pathname u) (search u) (hash u) in
        let u := mkURL (protocol u) (hostname u) "" (pathname u) (search u) (hash u) in
        let u := mkURL "https:" (hostname u) (port u) (pathname u) (search u) (hash u) in
        let init := mkRequestInit (req_method request) (req_headers request) "follow" None in
        let init :=
          if negb (includesStr ["GET"; "HEAD"] (req_method request))
          then mkRequestInit (init_method init) (init_headers init)
                 (init_redirect init) (Some (req_body request))
          else init in
        let hs := fold_left (fun hs h => Headers.delete h hs) removeHeaders (init_headers init) in
        let hs := Headers.set "host" targetHost hs in
        Some (mkReqData u
                (mkRequestInit (init_method init) hs (init_redirect init) (init_body init)))
  end.

Definition MSG_NOT_FOUND : string := "抱歉，您请求的资源未找到。".
Definition MSG_UNAVAILABLE : string :=
  "请求的资源可能需要特殊权限才能访问，或者暂时不可用。".
Definition MSG_NO_GET_URL : string := "未配置 GET_URL，请先配置环境变量。".
Definition MSG_BUILD_FAILED : string := "无法构建请求，请检查环境变量配置。".

(** The response [generateErrorPage] asks the constructor for.  The holes
    of the template are, in order: the title, the big status mark, the
    heading and the message. *)
Definition generateErrorPage (statusCode : Z) (customMessage : option string)
  : Response :=
  let custom := JS.truthy customMessage in
  let msg :=
    match customMessage with
    | Some m => if custom then m
                else if statusCode =? 404 then MSG_NOT_FOUND else MSG_UNAVAILABLE
    | None => if statusCode =? 404 then MSG_NOT_FOUND else MSG_UNAVAILABLE
    end in
  mkResponse
    (if custom then 500 else statusCode)
    ""
    (Headers.set "Content-Type" "text/html; charset=utf-8" ∅)
    (Some (Html [ if custom then "配置错误" else "状态 " +:+ pretty statusCode;
                  if custom then "!" else pretty statusCode;
                  if custom then "配置错误" else "请求状态";
                  msg ])).

Definition otherPreview : list string :=
  ["application/json"; "application/xml"; "application/javascript"; "text/javascript"].

Definition getDisposition (contentType : option string) (env : Env) : string :=
  match contentType with
  | None => "attachment"
  | Some ct =>
      if negb (JS.truthy contentType) then "attachment"
      else
        let contentType := JS.toLowerCase ct in
        let forceInlineList := parseMimeList (FORCE_INLINE_TYPES env) in
        let forceDownloadList := parseMimeList (FORCE_DOWNLOAD_TYPES env) in
        if existsb (fun t => JS.includes contentType t) forceInlineList then "inline"
        else if existsb (fun t => JS.includes contentType t) forceDownloadList
        then "attachment"
        else if JS.startsWith contentType "image/" then "inline"
        else if JS.startsWith contentType "text/" then "inline"
        else if JS.includes contentType "application/pdf" then "inline"
        else if existsb (fun t => JS.includes contentType t) otherPreview then "inline"
        else "attachment"
  end.

(** The part of [getResponse] that follows [await fetch] (lines 158-179),
    applied to the upstream [response]: the response it asks the
    constructor for, with the header edits of the pass-through made. *)
Definition transform (env : Env) (normalStatusCodes : list Z) (response : Response)
  : Response :=
  if negb (includesNum normalStatusCodes (status response)) then
    if includesNum NULL_BODY_STATUS_CODES (status response)
    then mkResponse (status response) "" ∅ None
    else generateErrorPage (status response) None
  else
    let newResponse :=
      mkResponse (status response) (statusText response) (headers response)
        (if includesNum NULL_BODY_STATUS_CODES (status response)
         then None else body response) in
    let contentType := Headers.get "Content-Type" (headers newResponse) in
    let hs :=
      match contentType with
      | Some ct =>
          if JS.truthy contentType && JS.startsWith ct "text/"
          then Headers.set "Content-Type" (ct +:+ "; charset=" +:+ CHARSET_DEFAULT)
                 (headers newResponse)
          else headers newResponse
      | None => headers newResponse
      end in
    let disposition := getDisposition contentType env in
    mkResponse (status newResponse) (statusText newResponse)
      (Headers.set "Content-Disposition" disposition hs) (body newResponse).

Definition getResponse (request : Request) (env : Env) : Prog Response :=
  if negb (JS.truthy (GET_URL env)) then
    settle (construct (generateErrorPage 0 (Some MSG_NO_GET_URL)))
  else
    let normalStatusCodes := parseNormalStatusCodes (NORMAL_STATUS_CODES env) in
    match buildReq request env with
    | None => settle (construct (generateErrorPage 0 (Some MSG_BUILD_FAILED)))
    | Some reqData =>
        Fetch (url reqData) (requestInit reqData)
          (fun response => settle (construct (transform env normalStatusCodes response)))
    end.

(** The exported [fetch(request, env)] entry point. *)
Definition fetch (request : Request) (env : Env) : Prog Response :=
  getResponse request env.

End Workers.

(** ** src/src/index.js *)

Module Index.

Definition CHARSET_DEFAULT : string := "utf-8".
Definition PREVIEW_TYPES : list string :=
  ["text/"; "image/"; "application/json"; "application/xml"; "application/javascript"].

Definition shouldPreview (contentType : option string) : bool :=
  match contentType with
  | None => false
  | Some ct =>
      if negb (JS.truthy contentType) then false
      else existsb (fun type => JS.includes ct type) PREVIEW_TYPES
  end.

Definition parseNormalStatusCodes (statusCodesStr : option string) : list Z :=
  match statusCodesStr with
  | None => [200]
  | Some str =>
      if negb (JS.truthy statusCodesStr) then [200]
      else
        omap (fun code => code)
          (map (fun code => JS.parseInt (JS.trim code)) (JS.split "," str))
  end.

Definition buildReq (request : Request) (env : Env) : option ReqData :=
  match GET_URL env with
  | None => None
  | Some targetHost =>
      if negb (JS.truthy (GET_URL env)) then None
      else
        let u := req_url request in
        let u := mkURL (protocol u) (HostSet targetHost (hostname u)) (port u)
                   (pathname u) (search u) (hash u) in
        let u := mkURL (protocol u) (hostname u) "" (pathname u) (search u) (hash u) in
        let u := mkURL "https:" (hostname u) (port u) (pathname u) (search u) (hash u) in
        let init := mkRequestInit (req_method request) (req_headers request) "follow" None in
        let init :=
          if negb (includesStr ["GET"; "HEAD"] (req_method request))
          then mkRequestInit (init_method init) (init_headers init)
                 (init_redirect init) (Some (req_body request))
          else init in
        let hs := init_headers init in
        let hs := Headers.delete "host" hs in
        let hs := Headers.delete "cf-connecting-ip" hs in
        let hs := Headers.delete "cf-ipcountry" hs in
        let hs := Headers.delete "cf-ray" hs in
        let hs := Headers.delete "cf-visitor" hs in
        let hs := Headers.delete "cdn-loop" hs in
        let hs := Headers.set "host" targetHost hs in
        Some (mkReqData u
                (mkRequestInit (init_method init) hs (init_redirect init) (init_body init)))
  end.

Definition MSG_NOT_FOUND : string := "抱歉，您请求的资源未找到。".
Definition MSG_UNAVAILABLE : string :=
  "请求的资源可能需要特殊权限才能访问，或者暂时不可用。".
Definition MSG_NO_GET_URL : string := "未配置 GET_URL，请先配置环境变量。".
Definition MSG_BUILD_FAILED : string := "无法构建请求，请检查环境变量配置。".

Definition dquote : string := String (ascii_of_nat 34) EmptyString.
Definition RETRY_BLOCK : string :=
  "<div class=" +:+ dquote +:+ "retry-message" +:+ dquote +:+ ">请稍后再试</div>".

(** The response [generateErrorPage] asks the constructor for.  The holes
    of the template are, in order: the title, the status mark, the
    heading, the message and the retry block. *)
Definition generateErrorPage (statusCode : Z) (customMessage : option string)
  : Response :=
  let custom := JS.truthy customMessage in
  let friendlyMessage :=
    match customMessage with
    | Some m => if custom then m
                else if statusCode =? 404 then MSG_NOT_FOUND else MSG_UNAVAILABLE
    | None => if statusCode =? 404 then MSG_NOT_FOUND else MSG_UNAVAILABLE
    end in
  mkResponse
    (if custom then 500 else statusCode)
    ""
    (Headers.set "Content-Type" "text/html; charset=utf-8" ∅)
    (Some (Html [ if custom then "配置错误" else "状态 " +:+ pretty statusCode;
                  if custom then "!" else pretty statusCode;
                  if custom then "配置错误" else "请求状态";
                  friendlyMessage;
                  if custom then "" else RETRY_BLOCK ])).

(** The part of [getResponse] that follows [await fetch] (lines 206-217):
    the response it asks the constructor for, header edits made. *)
Definition transform (normalStatusCodes : list Z) (response : Response) : Response :=
  if negb (includesNum normalStatusCodes (status response)) then
    generateErrorPage (status response) None
  else
    let newResponse :=
      mkResponse (status response) (statusText response) (headers response)
        (body response) in
    let contentType := Headers.get "Content-Type" (headers newResponse) in
    let isPreview := shouldPreview contentType in
    let hs :=
      match contentType with
      | Some ct =>
          if isPreview
          then Headers.set "Content-Type" (ct +:+ "; charset=" +:+ CHARSET_DEFAULT)
                 (headers newResponse)
          else headers newResponse
      | None => headers newResponse
      end in
    mkResponse (status newResponse) (statusText newResponse)
      (Headers.set "Content-Disposition" (if isPreview then "inline" else "attachment") hs)
      (body newResponse).

Definition getResponse (request : Request) (env : Env) : Prog Response :=
  if negb (JS.truthy (GET_URL env)) then
    settle (construct (generateErrorPage 0 (Some MSG_NO_GET_URL)))
  else
    let normalStatusCodes := parseNormalStatusCodes (NORMAL_STATUS_CODES env) in
    match buildReq request env with
    | None => settle (construct (generateErrorPage 0 (Some MSG_BUILD_FAILED)))
    | Some requestData =>
        Fetch (url requestData) (requestInit requestData)
          (fun response => settle (construct (transform normalStatusCodes response)))
    end.

Definition fetch (request : Request) (env : Env) : Prog Response :=
  getResponse request env.

End Index.

(** * Vocabulary of the properties

    Predicates in which the properties below are stated, and the sample
    requests, responses and environments they are tried on. *)

(** [t] occurs in [s]; [s] begins with [t]. *)
Definition contains (s t : string) : Prop := ∃ a b, s = a +:+ t +:+ b.
Definition beginsWith (s t : string) : Prop := ∃ r, s = t +:+ r.

(** The integer each token of [str] stands for, [None] when it has none. *)
Definition tokenValues (str : string) : list (option Z) :=
  map (λ code, JS.parseInt (JS.trim code)) (JS.split "," str).

Definition isDecimalDigit (c : ascii) : bool :=
  let n := nat_of_ascii c in ((48 <=? n) && (n <=? 57))%nat.

Fixpoint allDecimalDigits (s : string) : bool :=
  match s with
  | EmptyString => true
  | String c s' => isDecimalDigit c && allDecimalDigits s'
  end.

(** The first character of [s], if there is one, is not a decimal digit. *)
Definition nonNumericStart (s : string) : bool :=
  match s with
  | EmptyString => true
  | String c _ => negb (isDecimalDigit c)
  end.

(** [s] begins with [0x] or [0X]. *)
Definition hexPrefixed (s : string) : bool :=
  JS.startsWith s "0x" || JS.startsWith s "0X".

(** The number a string of decimal digits denotes. *)
Fixpoint decimalDigits (s : string) : list Z :=
  match s with
  | EmptyString => []
  | String c s' => (Z.of_nat (nat_of_ascii c) - 48) :: decimalDigits s'
  end.
Definition decimalValue (s : string) : Z :=
  fold_left (λ acc d, acc * 10 + d) (decimalDigits s) 0.

(** The built-in inline classes. *)
Definition builtinInline (ct : string) : Prop :=
  beginsWith ct "image/" ∨ beginsWith ct "text/" ∨
  contains ct "application/pdf" ∨ contains ct "application/json" ∨
  contains ct "application/xml" ∨ contains ct "application/javascript" ∨
  contains ct "text/javascript".

(** Some entry of the override list [l] occurs in [ct]. *)
Definition overrideMatches (l : list string) (ct : string) : Prop :=
  ∃ t, In t l ∧ contains ct t.

(** The policy in the words of the specification: a present content-type
    is inline when a force-inline entry occurs in its lower-cased form, or
    no force-download entry does and it is of a built-in inline class. *)
Definition decidesInline (contentType : option string)
    (forceInline forceDownload : list string) : Prop :=
  ∃ ct, contentType = Some ct ∧
    (overrideMatches forceInline (JS.toLowerCase ct) ∨
     (¬ overrideMatches forceDownload (JS.toLowerCase ct) ∧
      builtinInline (JS.toLowerCase ct))).

Definition builtinInlineb (ct : string) : bool :=
  JS.startsWith ct "image/" || JS.startsWith ct "text/" ||
  JS.includes ct "application/pdf" ||
  existsb (λ t, JS.includes ct t) Workers.otherPreview.

(** Turn [b = true ↔ P], with [b] a computed flag, into [P] or [¬ P]. *)
Ltac decide_flag H :=
  match type of H with
  | true = true ↔ _ => apply proj1 in H; specialize (H eq_refl)
  | false = true ↔ ?P =>
      let X := fresh "X" in
      let N := fresh "Hnot" in
      assert (N : ¬ P) by (intros X; apply H in X; discriminate X); clear H
  end.

Definition sampleEnv : Env := mkEnv (Some "files.example.org") None None None.
Definition sampleUrl : URL :=
  mkURL "http:" (HostOf "proxy.example.net") "8080" "/a.txt" "?v=1" "".
Definition sampleGet : Request :=
  mkRequest sampleUrl "GET" (Headers.set "cf-ray" "abc" ∅) (Some (Stream 7)).
Definition samplePost : Request :=
  mkRequest sampleUrl "POST" (Headers.set "cf-ray" "abc" ∅) (Some (Stream 7)).

Definition upstream (code : Z) (contentType : string) : Response :=
  mkResponse code "" (Headers.set "Content-Type" contentType ∅) (Some (Stream 1)).

(** Pass-through: the upstream response with its status line kept, its
    body kept (dropped for a bodiless code) and the disposition set. *)
Definition passesThrough (env : Env) (response out : Response) : Prop :=
  status out = status response ∧
  statusText out = statusText response ∧
  body out = (if includesNum Workers.NULL_BODY_STATUS_CODES (status response)
              then None else body response) ∧
  Headers.get "Content-Disposition" (headers out) =
    Some (Workers.getDisposition (Headers.get "Content-Type" (headers response)) env).

(** Bodiless: nothing but the upstream status. *)
Definition isBodiless (response out : Response) : Prop :=
  out = mkResponse (status response) "" ∅ None.

(** Error page: the page rendered for the upstream status. *)
Definition isErrorPage (response out : Response) : Prop :=
  out = Workers.generateErrorPage (status response) None.

Definition hasDisposition (out : Response) : Prop :=
  is_Some (Headers.get "Content-Disposition" (headers out)).

(** The transformer in the words of the specification: as [transform],
    except that the disposition is decided on the content-type after the
    charset completion. *)
Definition transform_on_augmented (env : Env) (normalStatusCodes : list Z)
    (response : Response) : Response :=
  let out := Workers.transform env normalStatusCodes response in
  if includesNum normalStatusCodes (status response) then
    mkResponse (status out) (statusText out)
      (Headers.set "Content-Disposition"
         (Workers.getDisposition (Headers.get "Content-Type" (headers out)) env)
         (headers out))
      (body out)
  else out.

Definition charsetDownloadEnv : Env :=
  mkEnv (Some "files.example.org") None None (Some "charset").

(** A client whose upstream always answers [r]. *)
Definition answering (r : Response) : Client := λ _ _, Some r.

Definition allow204Env : Env :=
  mkEnv (Some "files.example.org") (Some "200,204") None None.

(** A content-type that index.js previews: it is present and one of the
    [PREVIEW_TYPES] occurs in it, as written. *)
Definition previewable (contentType : option string) : Prop :=
  ∃ ct, contentType = Some ct ∧ overrideMatches Index.PREVIEW_TYPES ct.

(** The response a completion settles to, if any. *)
Definition answered (c : Completion Response) : option Response :=
  match c with
  | Normal r => Some r
  | Thrown _ => None
  end.

(** A status the [Response] constructor accepts. *)
Definition inRange (code : Z) : Prop := 200 <= code <= 599.

(** The answer of an upstream that switches to WebSocket. *)
Definition upgrade101 : Response := mkResponse 101 "Switching Protocols" ∅ None.

(** A client whose upstream cannot be reached. *)
Definition unreachable : Client := λ _ _, None.

(** * Properties *)

(** ** The string primitives against their meaning *)

Section StringFacts.

Example trim_ex : JS.trim "  301 " = "301".
Proof. reflexivity. Qed.
Example split_ex : JS.split "," "200, 301 ,abc" = ["200"; " 301 "; "abc"].
Proof. reflexivity. Qed.
Example parseInt_ex1 : JS.parseInt "-12 " = Some (-12).
Proof. reflexivity. Qed.
Example parseInt_ex2 : JS.parseInt "0x1F" = Some 31.
Proof. reflexivity. Qed.

Lemma append_nil b : "" +:+ b = b.
Proof. reflexivity. Qed.

Lemma append_cons c a b : String c a +:+ b = String c (a +:+ b).
Proof. reflexivity. Qed.

Lemma prefix_beginsWith t s : String.prefix t s = true ↔ beginsWith s t.
Proof.
  revert s. induction t as [|c t IH]; intros s; unfold beginsWith in *.
  - split; [intros _; exists s; reflexivity | intros _; destruct s; reflexivity].
  - destruct s as [|d s]; cbn.
    + split; [discriminate | intros [r Hr]; discriminate].
    + setoid_rewrite append_cons.
      destruct (ascii_dec c d) as [->|Hne].
      * rewrite IH. split; intros [r Hr]; exists r; congruence.
      * split; [discriminate | intros [r Hr]; congruence].
Qed.

Lemma startsWith_spec s t : JS.startsWith s t = true ↔ beginsWith s t.
Proof. apply prefix_beginsWith. Qed.

Lemma includes_spec s t : JS.includes s t = true ↔ contains s t.
Proof.
  induction s as [|c s IH]; cbn [JS.includes].
  - rewrite orb_false_r, prefix_beginsWith. unfold beginsWith, contains. split.
    + intros [r Hr]. exists "", r. exact Hr.
    + intros [a [b H]]. destruct a; [eauto | discriminate].
  - rewrite orb_true_iff, prefix_beginsWith, IH. unfold beginsWith, contains. split.
    + intros [[r Hr] | [a [b H]]].
      * exists "", r. exact Hr.
      * exists (String c a), b. rewrite append_cons. congruence.
    + intros [a [b H]]. destruct a as [|d a].
      * left. eauto.
      * right. rewrite append_cons in H. exists a, b. congruence.
Qed.

Lemma contains_empty t : contains "" t → t = "".
Proof.
  intros [a [b H]]. destruct a; [|discriminate].
  destruct t; [reflexivity | discriminate].
Qed.

Lemma existsb_includes ct l :
  existsb (λ t, JS.includes ct t) l = true ↔ ∃ t, In t l ∧ contains ct t.
Proof.
  rewrite existsb_exists. split; intros [t [Hin H]]; exists t;
    (split; [exact Hin | apply includes_spec; exact H]).
Qed.

Lemma truthy_Some s : JS.truthy (Some s) = true ↔ s ≠ "".
Proof.
  simpl. destruct (String.eqb_spec s ""); simpl; split; congruence.
Qed.

End StringFacts.

(** ** ConfigParser: [parseNormalStatusCodes] *)

Section ConfigParser.

(** Both source files carry the same parser. *)
Lemma parseNormalStatusCodes_same raw :
  Index.parseNormalStatusCodes raw = Workers.parseNormalStatusCodes raw.
Proof. reflexivity. Qed.

Lemma parse_nonempty str :
  str ≠ "" →
  Workers.parseNormalStatusCodes (Some str) = omap (λ code, code) (tokenValues str).
Proof.
  intros Hne. unfold Workers.parseNormalStatusCodes.
  apply truthy_Some in Hne. rewrite Hne. reflexivity.
Qed.

Lemma In_omap_id (l : list (option Z)) n : In n (omap (λ code, code) l) ↔ In (Some n) l.
Proof.
  rewrite <- !list_elem_of_In, list_elem_of_omap. split.
  - intros [x [Hx ->]]. exact Hx.
  - intros H. exists (Some n). split; [exact H | reflexivity].
Qed.

Lemma omap_id_nil (l : list (option Z)) :
  omap (λ code, code) l = [] ↔ ∀ v, In v l → v = None.
Proof.
  induction l as [|[z|] l IH]; cbn.
  - split; [intros _ v [] | reflexivity].
  - split; [discriminate | intros H; specialize (H (Some z) (or_introl eq_refl)); discriminate].
  - rewrite IH. split.
    + intros H v [<-|Hv]; [reflexivity | apply H, Hv].
    + intros H v Hv. apply H. right. exact Hv.
Qed.

End ConfigParser.

(** C1, as stated, fails: a non-empty configuration string whose only
    token does not parse gives the empty allow-list, not [[200]]. *)
Lemma parseNormalStatusCodes_unparseable_is_empty :
  (∀ v, In v (tokenValues "abc") → v = None) ∧
  Workers.parseNormalStatusCodes (Some "abc") = [] ∧
  Workers.parseNormalStatusCodes (Some "abc") ≠ [200] ∧
  Index.parseNormalStatusCodes (Some "abc") = [].
Proof.
  split; [|split; [reflexivity | split; [discriminate | reflexivity]]].
  intros v [<-|[]]. reflexivity.
Qed.

(** C1 (amended): [parseNormalStatusCodes] returns exactly [[200]] when the
    configuration string is absent or empty.  For a non-empty string it
    returns the integers of the tokens that parse: [n] is in the result
    exactly when some token stands for [n], so the result is empty exactly
    when every token fails to parse. *)
Theorem parseNormalStatusCodes_result (raw : option string) :
  Index.parseNormalStatusCodes raw = Workers.parseNormalStatusCodes raw ∧
  (raw = None ∨ raw = Some "" → Workers.parseNormalStatusCodes raw = [200]) ∧
  (∀ str, raw = Some str → str ≠ "" →
     (∀ n, In n (Workers.parseNormalStatusCodes raw) ↔ In (Some n) (tokenValues str)) ∧
     (Workers.parseNormalStatusCodes raw = [] ↔ ∀ v, In v (tokenValues str) → v = None)).
Proof.
  split; [reflexivity|]. split.
  - intros [->| ->]; reflexivity.
  - intros str -> Hne. rewrite (parse_nonempty _ Hne). split.
    + intros n. apply In_omap_id.
    + apply omap_id_nil.
Qed.

Lemma parseNormalStatusCodes_result_witness :
  Workers.parseNormalStatusCodes None = [200] ∧
  Workers.parseNormalStatusCodes (Some "") = [200] ∧
  (∀ n, In n (Workers.parseNormalStatusCodes (Some "200, 301 ,abc"))
        ↔ In (Some n) (tokenValues "200, 301 ,abc")) ∧
  (Workers.parseNormalStatusCodes (Some "200, 301 ,abc") = []
   ↔ ∀ v, In v (tokenValues "200, 301 ,abc") → v = None).
Proof.
  split; [|split].
  - apply (proj1 (proj2 (parseNormalStatusCodes_result None))). left. reflexivity.
  - apply (proj1 (proj2 (parseNormalStatusCodes_result (Some "")))). right. reflexivity.
  - apply (proj2 (proj2 (parseNormalStatusCodes_result (Some "200, 301 ,abc"))) _ eq_refl).
    discriminate.
Defined.

(** ** ConfigParser: tokens with a numeric prefix *)

Section NumericPrefix.

Lemma isDecimalDigit_value c :
  isDecimalDigit c = true →
  JS.digitValue c = Some (Z.of_nat (nat_of_ascii c) - 48) ∧
  (Z.of_nat (nat_of_ascii c) - 48 <? 10) = true ∧
  JS.isWhiteSpace c = false ∧ c ≠ "-"%char ∧ c ≠ "+"%char.
Proof.
  unfold isDecimalDigit, JS.digitValue, JS.isWhiteSpace. intros H.
  apply andb_true_iff in H as [H1 H2].
  apply Nat.leb_le in H1. apply Nat.leb_le in H2.
  assert (Hc : (48 <=? Z.of_nat (nat_of_ascii c)) && (Z.of_nat (nat_of_ascii c) <=? 57) = true).
  { apply andb_true_iff. split; apply Z.leb_le; lia. }
  rewrite Hc. repeat split.
  - apply Z.ltb_lt. lia.
  - rewrite !orb_false_iff, andb_false_iff. repeat split.
    + right. apply Nat.leb_gt. lia.
    + apply Nat.eqb_neq. lia.
    + apply Nat.eqb_neq. lia.
  - intros ->. vm_compute in H1. lia.
  - intros ->. vm_compute in H1. lia.
Qed.

Lemma nonNumericStart_radixDigits rest :
  nonNumericStart rest = true → JS.radixDigits 10 rest = [].
Proof.
  destruct rest as [|c rest]; [reflexivity|]. cbn [nonNumericStart JS.radixDigits].
  unfold isDecimalDigit, JS.digitValue. intros H. apply negb_true_iff in H.
  assert (Hn : (nat_of_ascii c < 256)%nat) by apply nat_ascii_bounded.
  set (n := nat_of_ascii c) in *.
  destruct (48 <=? Z.of_nat n) eqn:E1, (Z.of_nat n <=? 57) eqn:E2; cbn [andb].
  - exfalso. apply Z.leb_le in E1. apply Z.leb_le in E2.
    apply andb_false_iff in H as [H|H]; apply Nat.leb_gt in H; lia.
  - apply Z.leb_le in E1. apply Z.leb_gt in E2.
    destruct ((97 <=? Z.of_nat n) && (Z.of_nat n <=? 122)) eqn:E3.
    + apply andb_true_iff in E3 as [E3 E4]. apply Z.leb_le in E3.
      destruct (Z.of_nat n - 87 <? 10) eqn:E5; [apply Z.ltb_lt in E5; lia | reflexivity].
    + destruct ((65 <=? Z.of_nat n) && (Z.of_nat n <=? 90)) eqn:E4; [|reflexivity].
      apply andb_true_iff in E4 as [E4 E6]. apply Z.leb_le in E4.
      destruct (Z.of_nat n - 55 <? 10) eqn:E5; [apply Z.ltb_lt in E5; lia | reflexivity].
  - apply Z.leb_gt in E1.
    destruct ((97 <=? Z.of_nat n) && (Z.of_nat n <=? 122)) eqn:E3.
    + apply andb_true_iff in E3 as [E3 E4]. apply Z.leb_le in E3. lia.
    + destruct ((65 <=? Z.of_nat n) && (Z.of_nat n <=? 90)) eqn:E4; [|reflexivity].
      apply andb_true_iff in E4 as [E4 E6]. apply Z.leb_le in E4. lia.
  - apply Z.leb_gt in E1. apply Z.leb_gt in E2. lia.
Qed.

Lemma radixDigits_decimal ds rest :
  allDecimalDigits ds = true → nonNumericStart rest = true →
  JS.radixDigits 10 (ds +:+ rest) = decimalDigits ds.
Proof.
  intros Hds Hrest. induction ds as [|c ds IH].
  - rewrite append_nil. apply nonNumericStart_radixDigits, Hrest.
  - cbn [allDecimalDigits] in Hds. apply andb_true_iff in Hds as [Hc Hds].
    rewrite append_cons. cbn [JS.radixDigits decimalDigits].
    destruct (isDecimalDigit_value c Hc) as [-> [-> _]].
    rewrite (IH Hds). reflexivity.
Qed.

Lemma stripSign_unsigned c s :
  c ≠ "-"%char → c ≠ "+"%char → JS.stripSign (String c s) = (1, String c s).
Proof.
  intros Hm Hp.
  destruct c as [[] [] [] [] [] [] [] []]; try reflexivity; congruence.
Qed.

Lemma stripPrefix_decimal s :
  hexPrefixed s = false → JS.stripPrefix s = (10, s).
Proof.
  destruct s as [|c [|d r]]; [reflexivity | |].
  - intros _. destruct c as [[] [] [] [] [] [] [] []]; reflexivity.
  - destruct (ascii_dec c "0") as [->|Hc].
    + unfold hexPrefixed, JS.startsWith.
      destruct d as [[] [] [] [] [] [] [] []]; cbn; intros H;
        try reflexivity; destruct r; discriminate.
    + intros _. destruct c as [[] [] [] [] [] [] [] []]; try reflexivity; congruence.
Qed.

Lemma parseInt_decimal_prefix ds rest :
  ds ≠ "" → allDecimalDigits ds = true → nonNumericStart rest = true →
  hexPrefixed (ds +:+ rest) = false →
  JS.parseInt (ds +:+ rest) = Some (decimalValue ds).
Proof.
  intros Hne Hds Hrest Hhex. unfold JS.parseInt.
  destruct ds as [|c ds]; [congruence|].
  pose proof Hds as Hc. cbn [allDecimalDigits] in Hc.
  apply andb_true_iff in Hc as [Hc _].
  destruct (isDecimalDigit_value c Hc) as (_ & _ & Hw & Hm & Hp).
  rewrite append_cons in *. cbn [JS.trimStart]. rewrite Hw.
  rewrite (stripSign_unsigned _ _ Hm Hp), (stripPrefix_decimal _ Hhex).
  rewrite <- append_cons, (radixDigits_decimal _ _ Hds Hrest).
  unfold decimalValue, JS.digitsValue. cbn [decimalDigits].
  rewrite Z.mul_1_l. reflexivity.
Qed.

End NumericPrefix.

(** C10, as stated, fails for a token that begins with [0x] or [0X]: the
    digit [0] is then followed by non-numeric text, yet the token is read
    in base 16.  [0xZ] is discarded and [0x1F] contributes 31, not the
    value 0 of its decimal prefix. *)
Lemma hex_prefixed_token_is_not_read_as_decimal :
  JS.trim "0xZ" = "0" +:+ "xZ" ∧ JS.trim "0x1F" = "0" +:+ "x1F" ∧
  allDecimalDigits "0" = true ∧
  nonNumericStart "xZ" = true ∧ nonNumericStart "x1F" = true ∧
  decimalValue "0" = 0 ∧
  Workers.parseNormalStatusCodes (Some "0xZ") = [] ∧
  Workers.parseNormalStatusCodes (Some "0x1F") = [31] ∧
  ¬ In (decimalValue "0") (Workers.parseNormalStatusCodes (Some "0x1F")).
Proof.
  repeat split; try reflexivity.
  intros [H|[]]. discriminate.
Qed.

(** C10 (amended): a comma-separated token whose trimmed text is a
    non-empty run of decimal digits followed by text that does not start
    with a digit, and that does not begin with [0x] or [0X], is kept: the
    value of the run of digits is in the result.  The run is taken to
    denote at most 2^53, a value that a Number holds exactly.  In
    particular the token [301abc] contributes 301. *)
Theorem numeric_prefix_token_kept (str tok ds rest : string) :
  str ≠ "" →
  In tok (JS.split "," str) →
  JS.trim tok = ds +:+ rest →
  ds ≠ "" → allDecimalDigits ds = true → nonNumericStart rest = true →
  hexPrefixed (JS.trim tok) = false →
  decimalValue ds <= 2 ^ 53 →
  In (decimalValue ds) (Workers.parseNormalStatusCodes (Some str)) ∧
  In (decimalValue ds) (Index.parseNormalStatusCodes (Some str)).
Proof.
  intros Hstr Htok Htrim Hne Hds Hrest Hhex _.
  change (Index.parseNormalStatusCodes (Some str))
    with (Workers.parseNormalStatusCodes (Some str)).
  rewrite (parse_nonempty _ Hstr).
  assert (In (decimalValue ds) (omap (λ code, code) (tokenValues str))); [|tauto].
  apply In_omap_id. unfold tokenValues. apply in_map_iff.
  exists tok. split; [|exact Htok].
  rewrite Htrim in *. apply parseInt_decimal_prefix; assumption.
Qed.

Lemma numeric_prefix_token_kept_witness :
  In 301 (Workers.parseNormalStatusCodes (Some "200, 301abc ,x")) ∧
  In 301 (Index.parseNormalStatusCodes (Some "200, 301abc ,x")).
Proof.
  apply (numeric_prefix_token_kept "200, 301abc ,x" " 301abc " "301" "abc").
  - discriminate.
  - right. left. reflexivity.
  - reflexivity.
  - discriminate.
  - reflexivity.
  - reflexivity.
  - reflexivity.
  - vm_compute. discriminate.
Defined.

(** ** DispositionPolicy: [getDisposition] *)

Section DispositionPolicy.

Lemma builtinInlineb_spec ct : builtinInlineb ct = true ↔ builtinInline ct.
Proof.
  unfold builtinInlineb, builtinInline, Workers.otherPreview. cbn [existsb].
  rewrite !orb_true_iff, !startsWith_spec, !includes_spec. intuition discriminate.
Qed.

Lemma parseMimeList_nonempty m t : In t (Workers.parseMimeList m) → t ≠ "".
Proof.
  unfold Workers.parseMimeList. destruct m as [str|]; [|intros []].
  destruct (negb (JS.truthy (Some str))); [intros []|].
  rewrite <- list_elem_of_In, list_elem_of_filter. tauto.
Qed.

Lemma overrideMatches_existsb l ct :
  existsb (λ t, JS.includes ct t) l = true ↔ overrideMatches l ct.
Proof. apply existsb_includes. Qed.

Lemma getDisposition_bool ct env :
  ct ≠ "" →
  Workers.getDisposition (Some ct) env =
  if existsb (λ t, JS.includes (JS.toLowerCase ct) t)
       (Workers.parseMimeList (FORCE_INLINE_TYPES env))
     || negb (existsb (λ t, JS.includes (JS.toLowerCase ct) t)
                (Workers.parseMimeList (FORCE_DOWNLOAD_TYPES env)))
        && builtinInlineb (JS.toLowerCase ct)
  then "inline" else "attachment".
Proof.
  intros Hne. apply truthy_Some in Hne.
  unfold Workers.getDisposition, builtinInlineb. rewrite Hne. cbn [negb].
  destruct (existsb _ (Workers.parseMimeList (FORCE_INLINE_TYPES env))); [reflexivity|].
  destruct (existsb _ (Workers.parseMimeList (FORCE_DOWNLOAD_TYPES env))); [reflexivity|].
  cbn [orb andb negb].
  destruct (JS.startsWith _ "image/"); [reflexivity|].
  destruct (JS.startsWith _ "text/"); [reflexivity|].
  destruct (JS.includes _ "application/pdf"); [reflexivity|].
  cbn [orb]. destruct (existsb _ Workers.otherPreview); reflexivity.
Qed.

Lemma getDisposition_token contentType env :
  Workers.getDisposition contentType env = "inline" ∨
  Workers.getDisposition contentType env = "attachment".
Proof.
  destruct contentType as [ct|]; [|right; reflexivity].
  destruct (string_dec ct "") as [->|Hne]; [right; reflexivity|].
  rewrite (getDisposition_bool _ _ Hne). destruct (_ || _); auto.
Qed.

Lemma getDisposition_inline_iff contentType env :
  Workers.getDisposition contentType env = "inline" ↔
  decidesInline contentType
    (Workers.parseMimeList (FORCE_INLINE_TYPES env))
    (Workers.parseMimeList (FORCE_DOWNLOAD_TYPES env)).
Proof.
  unfold decidesInline. destruct contentType as [ct|].
  - destruct (string_dec ct "") as [->|Hne].
    + split; [discriminate|]. intros (ct & [= <-] & [(t & Hin & Hc) | (_ & Hb)]).
      * apply contains_empty in Hc. apply parseMimeList_nonempty in Hin. congruence.
      * apply builtinInlineb_spec in Hb. discriminate.
    + rewrite (getDisposition_bool _ _ Hne).
      pose proof (overrideMatches_existsb
        (Workers.parseMimeList (FORCE_INLINE_TYPES env)) (JS.toLowerCase ct)) as HI.
      pose proof (overrideMatches_existsb
        (Workers.parseMimeList (FORCE_DOWNLOAD_TYPES env)) (JS.toLowerCase ct)) as HD.
      pose proof (builtinInlineb_spec (JS.toLowerCase ct)) as HB.
      destruct (existsb _ (Workers.parseMimeList (FORCE_INLINE_TYPES env)));
        destruct (existsb _ (Workers.parseMimeList (FORCE_DOWNLOAD_TYPES env)));
        destruct (builtinInlineb (JS.toLowerCase ct)); cbn [orb andb negb];
        decide_flag HI; decide_flag HD; decide_flag HB;
        (split;
         [ intros H; first [discriminate H | exists ct; split; [reflexivity | tauto]]
         | intros (ct' & [= <-] & H'); first [reflexivity | exfalso; tauto] ]).
  - split; [discriminate|]. intros (ct & [=] & _).
Qed.

End DispositionPolicy.

(** C3: [getDisposition] answers [inline] exactly when the policy of the
    specification does (a force-inline entry occurs in the lower-cased
    content-type, or no force-download entry does and the type is of a
    built-in inline class) and [attachment] in every other case, an absent
    content-type included.  When both override lists match, inline wins;
    a force-download match beats the built-in class of [image/png]. *)
Theorem DispositionPolicy_decide (contentType : option string) (env : Env) :
  (Workers.getDisposition contentType env = "inline" ↔
   decidesInline contentType
     (Workers.parseMimeList (FORCE_INLINE_TYPES env))
     (Workers.parseMimeList (FORCE_DOWNLOAD_TYPES env))) ∧
  (Workers.getDisposition contentType env = "attachment" ↔
   ¬ decidesInline contentType
     (Workers.parseMimeList (FORCE_INLINE_TYPES env))
     (Workers.parseMimeList (FORCE_DOWNLOAD_TYPES env))) ∧
  Workers.getDisposition None env = "attachment" ∧
  (∀ ct, contentType = Some ct →
     overrideMatches (Workers.parseMimeList (FORCE_INLINE_TYPES env)) (JS.toLowerCase ct) →
     overrideMatches (Workers.parseMimeList (FORCE_DOWNLOAD_TYPES env)) (JS.toLowerCase ct) →
     Workers.getDisposition contentType env = "inline") ∧
  (builtinInline "image/png" ∧
   (¬ overrideMatches (Workers.parseMimeList (FORCE_INLINE_TYPES env)) "image/png" →
    overrideMatches (Workers.parseMimeList (FORCE_DOWNLOAD_TYPES env)) "image/png" →
    Workers.getDisposition (Some "image/png") env = "attachment")).
Proof.
  pose proof (getDisposition_inline_iff contentType env) as Hiff.
  split; [exact Hiff|]. split; [|split; [reflexivity|split]].
  - destruct (getDisposition_token contentType env) as [H|H]; rewrite H in *.
    + split; [discriminate|]. intros Hn. exfalso. apply Hn, Hiff. reflexivity.
    + split; [|reflexivity]. intros _ Hd. apply Hiff in Hd. discriminate.
  - intros ct -> Hi _. apply Hiff. exists ct. split; [reflexivity|]. left. exact Hi.
  - split.
    + left. exists "png". reflexivity.
    + intros Hi Hd.
      destruct (getDisposition_token (Some "image/png") env) as [H|H]; [|exact H].
      apply getDisposition_inline_iff in H as (ct & [= <-] & [H | [H _]]);
        exfalso; [apply Hi | apply H]; assumption.
Qed.

Lemma DispositionPolicy_decide_witness :
  Workers.getDisposition (Some "image/png") (mkEnv None None None (Some "image/"))
    = "attachment" ∧
  Workers.getDisposition (Some "image/png") (mkEnv None None None None) = "inline" ∧
  Workers.getDisposition (Some "Application/ZIP")
    (mkEnv None None (Some "zip, pdf") (Some "application/")) = "inline".
Proof.
  split; [|split].
  - apply (proj2 (proj2 (proj2 (proj2 (proj2
      (DispositionPolicy_decide None (mkEnv None None None (Some "image/")))))))).
    + intros (t & [] & _).
    + exists "image/". split; [left; reflexivity | exists "", "png"; reflexivity].
  - apply (proj1 (DispositionPolicy_decide (Some "image/png") (mkEnv None None None None))).
    exists "image/png". split; [reflexivity|]. right. split.
    + intros (t & [] & _).
    + left. exists "png". reflexivity.
  - apply (proj1 (proj2 (proj2 (proj2
      (DispositionPolicy_decide (Some "Application/ZIP")
         (mkEnv None None (Some "zip, pdf") (Some "application/"))))))
      "Application/ZIP" eq_refl).
    + exists "zip". split; [left; reflexivity | exists "application/", ""; reflexivity].
    + exists "application/". split; [left; reflexivity | exists "", "zip"; reflexivity].
Defined.

(** ** RequestRewriter: [buildReq] *)

Section RequestRewriter.

Lemma includesStr_In l x : includesStr l x = true ↔ In x l.
Proof.
  unfold includesStr. rewrite existsb_exists. split.
  - intros (y & Hy & E). apply String.eqb_eq in E. congruence.
  - intros H. exists x. split; [exact H | apply String.eqb_refl].
Qed.

Lemma includesNum_In l x : includesNum l x = true ↔ In x l.
Proof.
  unfold includesNum. rewrite existsb_exists. split.
  - intros (y & Hy & E). apply Z.eqb_eq in E. congruence.
  - intros H. exists x. split; [exact H | apply Z.eqb_refl].
Qed.

Lemma includesNum_not_In l x : includesNum l x = false ↔ ¬ In x l.
Proof.
  rewrite <- includesNum_In. destruct (includesNum l x); split; congruence.
Qed.

(** The two files build the same outbound request. *)
Lemma buildReq_same request env :
  Index.buildReq request env = Workers.buildReq request env.
Proof. reflexivity. Qed.

(** With an upstream host configured the request is always built: the
    method is copied and the URL points at the host over https. *)
Lemma buildReq_configured request env :
  JS.truthy (GET_URL env) = true →
  ∃ targetHost reqData,
    GET_URL env = Some targetHost ∧
    Workers.buildReq request env = Some reqData ∧
    init_method (requestInit reqData) = req_method request ∧
    init_redirect (requestInit reqData) = "follow" ∧
    hostname (url reqData) = HostSet targetHost (hostname (req_url request)) ∧
    port (url reqData) = "" ∧ protocol (url reqData) = "https:" ∧
    Headers.get "host" (init_headers (requestInit reqData)) = Some targetHost.
Proof.
  intros H. unfold Workers.buildReq. destruct (GET_URL env) as [targetHost|] eqn:E.
  - rewrite H. cbn [negb].
    destruct (includesStr ["GET"; "HEAD"] (req_method request));
      (eexists _, _; split; [reflexivity|]; split; [reflexivity|];
       cbn [negb requestInit url init_method init_redirect init_headers
            hostname port protocol];
       repeat (split; [reflexivity|]); apply lookup_insert_eq).
  - discriminate.
Qed.

Lemma buildReq_unconfigured request env :
  JS.truthy (GET_URL env) = false → Workers.buildReq request env = None.
Proof.
  intros H. unfold Workers.buildReq.
  destruct (GET_URL env); [rewrite H|]; reflexivity.
Qed.

End RequestRewriter.

(** C8: the outbound request built from a GET or HEAD request has no body
    property, whatever body the inbound request carried; for every other
    method the inbound body reference is carried over unchanged. *)
Theorem buildReq_body (request : Request) (env : Env) (reqData : ReqData) :
  Workers.buildReq request env = Some reqData →
  Index.buildReq request env = Some reqData ∧
  (req_method request = "GET" ∨ req_method request = "HEAD" →
   init_body (requestInit reqData) = None) ∧
  (req_method request ≠ "GET" → req_method request ≠ "HEAD" →
   init_body (requestInit reqData) = Some (req_body request)).
Proof.
  intros H. split; [exact H|]. unfold Workers.buildReq in H.
  destruct (GET_URL env) as [targetHost|]; [|discriminate].
  destruct (negb (JS.truthy (Some targetHost))); [discriminate|].
  destruct (includesStr ["GET"; "HEAD"] (req_method request)) eqn:E;
    cbn [negb] in H; injection H as <-; cbn [requestInit init_body].
  - split; [reflexivity|]. intros Hg Hh. apply includesStr_In in E.
    destruct E as [E|[E|[]]]; congruence.
  - split; [|reflexivity]. intros Hm. exfalso.
    assert (includesStr ["GET"; "HEAD"] (req_method request) = true); [|congruence].
    apply includesStr_In. destruct Hm as [-> | ->]; cbn; tauto.
Qed.

Lemma buildReq_body_witness :
  (∃ reqData, Workers.buildReq sampleGet sampleEnv = Some reqData ∧
              init_body (requestInit reqData) = None) ∧
  (∃ reqData, Workers.buildReq samplePost sampleEnv = Some reqData ∧
              init_body (requestInit reqData) = Some (Some (Stream 7))).
Proof.
  split.
  - destruct (Workers.buildReq sampleGet sampleEnv) as [d|] eqn:E;
      [|vm_compute in E; discriminate E].
    exists d. split; [reflexivity|].
    apply (buildReq_body sampleGet sampleEnv d E). left. reflexivity.
  - destruct (Workers.buildReq samplePost sampleEnv) as [d|] eqn:E;
      [|vm_compute in E; discriminate E].
    exists d. split; [reflexivity|].
    apply (buildReq_body samplePost sampleEnv d E); discriminate.
Defined.

(** ** ProxyOrchestrator and ResponseTransformer: [getResponse] *)

Section Handler.

Lemma get_set_same name v h : Headers.get name (Headers.set name v h) = Some v.
Proof. apply lookup_insert_eq. Qed.

Lemma get_set_other name name' v h :
  JS.toLowerCase name' ≠ JS.toLowerCase name →
  Headers.get name (Headers.set name' v h) = Headers.get name h.
Proof. intros H. apply lookup_insert_ne. exact H. Qed.

Lemma get_empty name : Headers.get name ∅ = None.
Proof. apply lookup_empty. Qed.

Lemma names_differ :
  JS.toLowerCase "Content-Disposition" ≠ JS.toLowerCase "Content-Type" ∧
  JS.toLowerCase "Content-Type" ≠ JS.toLowerCase "Content-Disposition".
Proof. split; discriminate. Qed.

(** What a run of the handler does once an upstream host is configured:
    one call to the client, with the rewritten request, and the upstream
    response goes through [transform]. *)
Lemma getResponse_configured request env reqData (net : Client) :
  JS.truthy (GET_URL env) = true →
  Workers.buildReq request env = Some reqData →
  run net (Workers.getResponse request env) =
  ( r ← net (url reqData) (requestInit reqData);
    answered (construct (Workers.transform env
                (Workers.parseNormalStatusCodes (NORMAL_STATUS_CODES env)) r)),
    [(url reqData, requestInit reqData)] ).
Proof.
  intros H E. unfold Workers.getResponse. rewrite H, E. cbn [negb run].
  destruct (net _ _) as [r|]; [|reflexivity]. cbn [mbind option_bind].
  destruct (construct _); reflexivity.
Qed.

Lemma Index_getResponse_configured request env reqData (net : Client) :
  JS.truthy (GET_URL env) = true →
  Index.buildReq request env = Some reqData →
  run net (Index.getResponse request env) =
  ( r ← net (url reqData) (requestInit reqData);
    answered (construct (Index.transform
                (Index.parseNormalStatusCodes (NORMAL_STATUS_CODES env)) r)),
    [(url reqData, requestInit reqData)] ).
Proof.
  intros H E. unfold Index.getResponse. rewrite H, E. cbn [negb run].
  destruct (net _ _) as [r|]; [|reflexivity]. cbn [mbind option_bind].
  destruct (construct _); reflexivity.
Qed.

(** The allowed branch of [transform], header by header. *)
Lemma transform_allowed env allowed response :
  In (status response) allowed →
  let out := Workers.transform env allowed response in
  status out = status response ∧
  statusText out = statusText response ∧
  body out = (if includesNum Workers.NULL_BODY_STATUS_CODES (status response)
              then None else body response) ∧
  Headers.get "Content-Disposition" (headers out) =
    Some (Workers.getDisposition (Headers.get "Content-Type" (headers response)) env) ∧
  Headers.get "Content-Type" (headers out) =
    match Headers.get "Content-Type" (headers response) with
    | Some ct => if JS.startsWith ct "text/"
                 then Some (ct +:+ "; charset=utf-8") else Some ct
    | None => None
    end.
Proof.
  intros H out. subst out. apply includesNum_In in H.
  unfold Workers.transform. rewrite H. cbn [negb status statusText body headers].
  repeat (split; [reflexivity|]). split; [apply get_set_same|].
  rewrite get_set_other by apply names_differ.
  destruct (Headers.get "Content-Type" (headers response)) as [ct|] eqn:E; [|exact E].
  destruct ct as [|c ct].
  - cbn. exact E.
  - change (JS.truthy (Some (String c ct))) with true. cbn [andb].
    destruct (JS.startsWith (String c ct) "text/"); [apply get_set_same | exact E].
Qed.

End Handler.

(** C5: with no upstream host configured the handler settles, for every
    request, to the rendered configuration-error page (status 500, the
    fixed message) and never calls the HTTP client: the same response and
    an empty call log result under every client. *)
Theorem unconfigured_never_fetches (request : Request) (env : Env) :
  JS.truthy (GET_URL env) = false →
  ∃ page,
    status page = 500 ∧
    body page = Some (Html ["配置错误"; "!"; "配置错误"; Workers.MSG_NO_GET_URL]) ∧
    Workers.MSG_NO_GET_URL = "未配置 GET_URL，请先配置环境变量。" ∧
    Workers.fetch request env = Ret page ∧
    ∀ net : Client, run net (Workers.fetch request env) = (Some page, []).
Proof.
  intros H. exists (Workers.generateErrorPage 0 (Some Workers.MSG_NO_GET_URL)).
  unfold Workers.fetch, Workers.getResponse. rewrite H. cbn [negb run].
  repeat split.
Qed.

Lemma unconfigured_never_fetches_witness :
  ∃ page,
    status page = 500 ∧
    body page = Some (Html ["配置错误"; "!"; "配置错误"; Workers.MSG_NO_GET_URL]) ∧
    Workers.MSG_NO_GET_URL = "未配置 GET_URL，请先配置环境变量。" ∧
    Workers.fetch samplePost (mkEnv (Some "") (Some "200,404") None None) = Ret page ∧
    ∀ net : Client,
      run net (Workers.fetch samplePost (mkEnv (Some "") (Some "200,404") None None))
      = (Some page, []).
Proof.
  apply (unconfigured_never_fetches samplePost (mkEnv (Some "") (Some "200,404") None None)).
  reflexivity.
Defined.

(** The other source file behaves alike when unconfigured. *)
Lemma Index_unconfigured_never_fetches request env (net : Client) :
  JS.truthy (GET_URL env) = false →
  ∃ page, status page = 500 ∧ run net (Index.fetch request env) = (Some page, []).
Proof.
  intros H. exists (Index.generateErrorPage 0 (Some Index.MSG_NO_GET_URL)).
  unfold Index.fetch, Index.getResponse. rewrite H. split; reflexivity.
Qed.

(** ** The verdict of the [Response] constructor *)

Section Constructor.

Lemma construct_Normal r out :
  construct r = Normal out →
  out = r ∧ inRange (status r) ∧ (body r = None ∨ nullBodyStatus (status r) = false).
Proof.
  unfold construct, inRange.
  destruct ((200 <=? status r) && (status r <=? 599)) eqn:R; cbn [negb]; [|discriminate].
  apply andb_true_iff in R as [R1 R2]. apply Z.leb_le in R1. apply Z.leb_le in R2.
  destruct (body r) as [b|].
  - destruct (nullBodyStatus (status r)); [discriminate|].
    intros [= <-]. split; [reflexivity|]. split; [lia | right; reflexivity].
  - intros [= <-]. split; [reflexivity|]. split; [lia | left; reflexivity].
Qed.

Lemma construct_accepts r :
  inRange (status r) → body r = None ∨ nullBodyStatus (status r) = false →
  construct r = Normal r.
Proof.
  unfold construct, inRange. intros [R1 R2] Hb.
  apply Z.leb_le in R1. apply Z.leb_le in R2. rewrite R1, R2. cbn [andb negb].
  destruct (body r) as [b|]; [|reflexivity].
  destruct Hb as [Hb|Hb]; [discriminate Hb | rewrite Hb; reflexivity].
Qed.

Lemma construct_out_of_range r : ¬ inRange (status r) → construct r = Thrown RangeError.
Proof.
  unfold construct, inRange. intros H.
  destruct ((200 <=? status r) && (status r <=? 599)) eqn:R; [|reflexivity].
  apply andb_true_iff in R as [R1 R2]. apply Z.leb_le in R1. apply Z.leb_le in R2. lia.
Qed.

(** Within 200..599 the null body statuses are those of the source's list. *)
Lemma nullBodyStatus_in_range code :
  inRange code →
  nullBodyStatus code = includesNum Workers.NULL_BODY_STATUS_CODES code.
Proof.
  unfold inRange, nullBodyStatus, includesNum, Workers.NULL_BODY_STATUS_CODES.
  intros H. cbn [existsb].
  rewrite (proj2 (Z.eqb_neq code 101)), (proj2 (Z.eqb_neq code 103)) by lia.
  reflexivity.
Qed.

Lemma transform_status env allowed response :
  status (Workers.transform env allowed response) = status response ∧
  status (Index.transform allowed response) = status response.
Proof.
  unfold Workers.transform, Index.transform.
  destruct (includesNum allowed (status response)); cbn [negb].
  - split; reflexivity.
  - destruct (includesNum Workers.NULL_BODY_STATUS_CODES (status response));
      split; reflexivity.
Qed.

(** The response asked for on a rejected status. *)
Lemma transform_rejected env allowed response :
  ¬ In (status response) allowed →
  (In (status response) [101; 204; 205; 304] →
   Workers.transform env allowed response = mkResponse (status response) "" ∅ None) ∧
  (¬ In (status response) [101; 204; 205; 304] →
   Workers.transform env allowed response
     = Workers.generateErrorPage (status response) None) ∧
  Index.transform allowed response = Index.generateErrorPage (status response) None.
Proof.
  intros H. apply includesNum_not_In in H.
  unfold Workers.transform, Index.transform. rewrite H.
  cbn [negb]. change [101; 204; 205; 304] with Workers.NULL_BODY_STATUS_CODES.
  split; [|split; [|reflexivity]].
  - intros Hn. apply includesNum_In in Hn. rewrite Hn. reflexivity.
  - intros Hn. apply includesNum_not_In in Hn. rewrite Hn. reflexivity.
Qed.

(** workers.js asks only for responses the constructor accepts, as long
    as the upstream status lies in 200..599. *)
Lemma Workers_accepted env allowed response :
  inRange (status response) →
  construct (Workers.transform env allowed response)
    = Normal (Workers.transform env allowed response).
Proof.
  intros R. apply construct_accepts.
  - rewrite (proj1 (transform_status env allowed response)). exact R.
  - rewrite (proj1 (transform_status env allowed response)).
    rewrite (nullBodyStatus_in_range _ R).
    unfold Workers.transform.
    destruct (includesNum allowed (status response)); cbn [negb body].
    + destruct (includesNum Workers.NULL_BODY_STATUS_CODES (status response));
        [left | right]; reflexivity.
    + destruct (includesNum Workers.NULL_BODY_STATUS_CODES (status response));
        [left | right]; reflexivity.
Qed.

End Constructor.

(** C2 (code bug): the claim asks for a bodiless response with status 101
    when an upstream 101 is outside the allow-list, and the code attempts
    it (101 is in [NULL_BODY_STATUS_CODES]), but the response it asks for,
    [new Response(null, {status: 101})], is refused by the constructor
    with a RangeError: the handler rejects and nothing is returned. *)
Theorem rejected_101_is_refused :
  ¬ In (status upgrade101) (Workers.parseNormalStatusCodes None) ∧
  In (status upgrade101) Workers.NULL_BODY_STATUS_CODES ∧
  Workers.transform sampleEnv (Workers.parseNormalStatusCodes None) upgrade101
    = mkResponse 101 "" ∅ None ∧
  construct (Workers.transform sampleEnv (Workers.parseNormalStatusCodes None) upgrade101)
    = Thrown RangeError ∧
  fst (run (answering upgrade101) (Workers.getResponse sampleGet sampleEnv)) = None.
Proof.
  split; [cbn; lia|]. split; [cbn; tauto|].
  split; [reflexivity|]. split; [reflexivity|]. vm_compute. reflexivity.
Qed.

(** ** The three outcomes of the transformer *)

Section Outcomes.

Lemma passesThrough_disposition env response out :
  passesThrough env response out → hasDisposition out.
Proof. intros (_ & _ & _ & H). unfold hasDisposition. rewrite H. eauto. Qed.

Lemma isBodiless_no_disposition response out :
  isBodiless response out → ¬ hasDisposition out.
Proof.
  intros -> [v H]. cbn [headers] in H. rewrite get_empty in H. discriminate.
Qed.

Lemma isErrorPage_no_disposition response out :
  isErrorPage response out → ¬ hasDisposition out.
Proof.
  intros -> [v H]. cbn [headers Workers.generateErrorPage] in H.
  rewrite get_set_other, get_empty in H by apply names_differ. discriminate.
Qed.

Lemma bodiless_not_errorPage response out :
  isBodiless response out → ¬ isErrorPage response out.
Proof. intros -> H. apply (f_equal body) in H. discriminate. Qed.

End Outcomes.

(** The response asked for is of exactly one of the three kinds, and has a
    Content-Disposition header exactly when it is the pass-through. *)
Lemma transform_outcome (env : Env) (allowed : list Z) (response : Response) :
  (passesThrough env response (Workers.transform env allowed response) ∧
   ¬ isBodiless response (Workers.transform env allowed response) ∧
   ¬ isErrorPage response (Workers.transform env allowed response)
   ∨
   ¬ passesThrough env response (Workers.transform env allowed response) ∧
   isBodiless response (Workers.transform env allowed response) ∧
   ¬ isErrorPage response (Workers.transform env allowed response)
   ∨
   ¬ passesThrough env response (Workers.transform env allowed response) ∧
   ¬ isBodiless response (Workers.transform env allowed response) ∧
   isErrorPage response (Workers.transform env allowed response)) ∧
  (hasDisposition (Workers.transform env allowed response) ↔
   passesThrough env response (Workers.transform env allowed response)) ∧
  (passesThrough env response (Workers.transform env allowed response) ↔
   In (status response) allowed).
Proof.
  assert (Hpt : In (status response) allowed →
                passesThrough env response (Workers.transform env allowed response)).
  { intros H. destruct (transform_allowed env allowed response H) as (A & B & C & D & _).
    exact (conj A (conj B (conj C D))). }
  assert (Hrej : ¬ In (status response) allowed →
                 isBodiless response (Workers.transform env allowed response) ∨
                 isErrorPage response (Workers.transform env allowed response)).
  { intros H. unfold isBodiless, isErrorPage, Workers.transform.
    apply includesNum_not_In in H. rewrite H. cbn [negb].
    destruct (includesNum Workers.NULL_BODY_STATUS_CODES (status response));
      [left | right]; reflexivity. }
  pose proof (passesThrough_disposition env response
                (Workers.transform env allowed response)) as P1.
  pose proof (isBodiless_no_disposition response
                (Workers.transform env allowed response)) as P2.
  pose proof (isErrorPage_no_disposition response
                (Workers.transform env allowed response)) as P3.
  pose proof (bodiless_not_errorPage response
                (Workers.transform env allowed response)) as P4.
  destruct (includesNum allowed (status response)) eqn:E.
  - apply includesNum_In in E. specialize (Hpt E). tauto.
  - apply includesNum_not_In in E. specialize (Hrej E). tauto.
Qed.

(** C9 (code bug): for an upstream 101 outside the allow-list the handler
    produces none of the three outcomes: the bodiless response it asks for
    is refused by the constructor (the defect of C2), so no outbound
    response exists. *)
Theorem rejected_101_has_no_outcome :
  construct (Workers.transform sampleEnv [200] upgrade101) = Thrown RangeError ∧
  ¬ (∃ out, answered (construct (Workers.transform sampleEnv [200] upgrade101)) = Some out ∧
            (passesThrough sampleEnv upgrade101 out ∨ isBodiless upgrade101 out ∨
             isErrorPage upgrade101 out)) ∧
  fst (run (answering upgrade101) (Workers.getResponse sampleGet sampleEnv)) = None.
Proof.
  split; [reflexivity|]. split.
  - intros (out & H & _). discriminate H.
  - vm_compute. reflexivity.
Qed.

(** ** Charset completion *)


(** index.js appends the charset to every previewable type, images
    included, and also without looking for an existing parameter. *)
Lemma Index_charset_appended_to_previews :
  Headers.get "Content-Type"
    (headers (Index.transform [200] (upstream 200 "image/png")))
    = Some "image/png; charset=utf-8" ∧
  Headers.get "Content-Type"
    (headers (Index.transform [200] (Index.transform [200] (upstream 200 "text/html"))))
    = Some "text/html; charset=utf-8; charset=utf-8".
Proof. split; vm_compute; reflexivity. Qed.




(** ** The content-type the disposition is decided on *)

(** C7, as stated, fails: the disposition is decided on the content-type
    as it was before the charset was appended.  With [charset] forced to
    download, a status-200 [text/html] response goes out as [inline],
    although the content-type it goes out with contains [charset]. *)
Lemma disposition_ignores_appended_charset :
  Headers.get "Content-Disposition"
    (headers (Workers.transform charsetDownloadEnv [200] (upstream 200 "text/html")))
    = Some "inline" ∧
  Headers.get "Content-Type"
    (headers (Workers.transform charsetDownloadEnv [200] (upstream 200 "text/html")))
    = Some "text/html; charset=utf-8" ∧
  Workers.getDisposition (Some "text/html; charset=utf-8") charsetDownloadEnv
    = "attachment" ∧
  Headers.get "Content-Disposition"
    (headers (transform_on_augmented charsetDownloadEnv [200] (upstream 200 "text/html")))
    = Some "attachment" ∧
  Workers.transform charsetDownloadEnv [200] (upstream 200 "text/html")
    ≠ transform_on_augmented charsetDownloadEnv [200] (upstream 200 "text/html").
Proof.
  repeat split; try (vm_compute; reflexivity).
  intros H. apply (f_equal (λ r, Headers.get "Content-Disposition" (headers r))) in H.
  vm_compute in H. discriminate H.
Qed.

(** C7 (amended): for every allowed upstream response the
    Content-Disposition header is the answer of [getDisposition] on the
    content-type as received from upstream, before the charset is
    appended; its value is the bare token [inline] or [attachment]. *)
Theorem disposition_from_upstream_content_type
    (env : Env) (allowed : list Z) (response : Response) :
  In (status response) allowed →
  Headers.get "Content-Disposition" (headers (Workers.transform env allowed response))
    = Some (Workers.getDisposition (Headers.get "Content-Type" (headers response)) env) ∧
  (Headers.get "Content-Disposition" (headers (Workers.transform env allowed response))
     = Some "inline" ∨
   Headers.get "Content-Disposition" (headers (Workers.transform env allowed response))
     = Some "attachment").
Proof.
  intros H.
  destruct (transform_allowed env allowed response H) as (_ & _ & _ & Hd & _).
  cbv zeta in Hd. split; [exact Hd|]. rewrite Hd.
  destruct (getDisposition_token (Headers.get "Content-Type" (headers response)) env)
    as [-> | ->]; auto.
Qed.

Lemma disposition_from_upstream_content_type_witness :
  Headers.get "Content-Disposition"
    (headers (Workers.transform charsetDownloadEnv [200] (upstream 200 "text/html")))
    = Some (Workers.getDisposition
              (Headers.get "Content-Type" (headers (upstream 200 "text/html")))
              charsetDownloadEnv).
Proof.
  apply (disposition_from_upstream_content_type charsetDownloadEnv [200]
           (upstream 200 "text/html")).
  left. reflexivity.
Defined.

(** ** The two source files compared *)

Section Variants.

Lemma Index_refuses_bodiless allowed response :
  ¬ In (status response) allowed →
  In (status response) [204; 205; 304] →
  construct (Index.transform allowed response) = Thrown TypeError.
Proof.
  intros H Hn. destruct (transform_rejected sampleEnv allowed response H) as (_ & _ & ->).
  cbn in Hn. destruct Hn as [<-|[<-|[<-|[]]]]; reflexivity.
Qed.

End Variants.

(** C6, as stated, fails: index.js never returns a response that carries a
    body alongside a bodiless status.  Whatever the allow-list and the
    upstream response with status 101, 204, 205 or 304, a response the
    constructor lets index.js return has no body. *)
Lemma Index_never_returns_body_with_bodiless_status :
  ¬ (∃ (allowed : list Z) (r ri : Response),
       In (status r) [101; 204; 205; 304] ∧
       answered (construct (Index.transform allowed r)) = Some ri ∧
       body ri ≠ None).
Proof.
  intros (allowed & r & ri & Hs & Ha & Hb).
  destruct (construct (Index.transform allowed r)) as [out|e] eqn:C; [|discriminate Ha].
  injection Ha as ->. apply construct_Normal in C as (-> & _ & [Hn|Hn]).
  - contradiction.
  - rewrite (proj2 (transform_status sampleEnv allowed r)) in Hn.
    cbn in Hs. destruct Hs as [E|[E|[E|[E|[]]]]]; rewrite <- E in Hn; discriminate Hn.
Qed.

(** C6 (amended): the two handlers are not equivalent.  Against an
    upstream that answers 204, 205 or 304 outside the allow-list, the
    handler of workers.js returns a response with that status, no header
    and no body; the handler of index.js returns nothing: the error page
    it asks for with that status is refused by the constructor
    (TypeError) and the handler rejects. *)
Theorem variants_differ_on_rejected_bodiless_status
    (request : Request) (env : Env) (net : Client) (d : ReqData) (r : Response) :
  Workers.buildReq request env = Some d →
  net (url d) (requestInit d) = Some r →
  ¬ In (status r) (Workers.parseNormalStatusCodes (NORMAL_STATUS_CODES env)) →
  In (status r) [204; 205; 304] →
  fst (run net (Workers.getResponse request env))
    = Some (mkResponse (status r) "" ∅ None) ∧
  construct (Index.transform (Index.parseNormalStatusCodes (NORMAL_STATUS_CODES env)) r)
    = Thrown TypeError ∧
  fst (run net (Index.getResponse request env)) = None.
Proof.
  intros E F Ha Hn.
  assert (T : JS.truthy (GET_URL env) = true).
  { destruct (JS.truthy (GET_URL env)) eqn:T; [reflexivity|].
    rewrite (buildReq_unconfigured _ _ T) in E. discriminate. }
  assert (R : inRange (status r)).
  { unfold inRange. cbn in Hn. lia. }
  rewrite (getResponse_configured _ _ _ net T E).
  rewrite (Index_getResponse_configured _ _ d net T E). rewrite F.
  cbn [mbind option_bind fst].
  rewrite (Workers_accepted _ _ _ R).
  change (Index.parseNormalStatusCodes (NORMAL_STATUS_CODES env))
    with (Workers.parseNormalStatusCodes (NORMAL_STATUS_CODES env)).
  rewrite (Index_refuses_bodiless _ _ Ha Hn).
  assert (Hn' : In (status r) [101; 204; 205; 304]) by (right; exact Hn).
  rewrite (proj1 (transform_rejected env _ r Ha) Hn').
  split; [reflexivity|]. split; reflexivity.
Qed.

Lemma variants_differ_on_rejected_bodiless_status_witness :
  fst (run (answering (upstream 304 "text/html")) (Workers.getResponse sampleGet sampleEnv))
    = Some (mkResponse 304 "" ∅ None) ∧
  construct (Index.transform (Index.parseNormalStatusCodes None) (upstream 304 "text/html"))
    = Thrown TypeError ∧
  fst (run (answering (upstream 304 "text/html")) (Index.getResponse sampleGet sampleEnv))
    = None.
Proof.
  destruct (Workers.buildReq sampleGet sampleEnv) as [d|] eqn:E;
    [|vm_compute in E; discriminate E].
  apply (variants_differ_on_rejected_bodiless_status sampleGet sampleEnv
           (answering (upstream 304 "text/html")) d (upstream 304 "text/html") E).
  - reflexivity.
  - cbn. lia.
  - cbn. tauto.
Defined.

(** * Further properties of the two files *)

(** ** Normal forms of the string primitives *)

Section NormalForms.

Lemma toLowerChar_idem c : JS.toLowerChar (JS.toLowerChar c) = JS.toLowerChar c.
Proof. destruct c as [[] [] [] [] [] [] [] []]; vm_compute; reflexivity. Qed.

Lemma toLowerChar_white c : JS.isWhiteSpace (JS.toLowerChar c) = JS.isWhiteSpace c.
Proof. destruct c as [[] [] [] [] [] [] [] []]; vm_compute; reflexivity. Qed.

Lemma toLowerCase_idem s : JS.toLowerCase (JS.toLowerCase s) = JS.toLowerCase s.
Proof.
  induction s as [|c s IH]; [reflexivity|].
  cbn [JS.toLowerCase]. rewrite toLowerChar_idem, IH. reflexivity.
Qed.

Lemma toLowerCase_empty s : JS.toLowerCase s = "" ↔ s = "".
Proof. destruct s; split; intros H; try reflexivity; discriminate H. Qed.

Lemma trimStart_lower s :
  JS.trimStart (JS.toLowerCase s) = JS.toLowerCase (JS.trimStart s).
Proof.
  induction s as [|c s IH]; [reflexivity|].
  cbn [JS.toLowerCase JS.trimStart]. rewrite toLowerChar_white.
  destruct (JS.isWhiteSpace c); [exact IH | reflexivity].
Qed.

Lemma trimEnd_lower s :
  JS.trimEnd (JS.toLowerCase s) = JS.toLowerCase (JS.trimEnd s).
Proof.
  induction s as [|c s IH]; [reflexivity|].
  cbn [JS.toLowerCase JS.trimEnd]. rewrite IH, toLowerChar_white.
  destruct (JS.trimEnd s) as [|d r]; cbn [JS.toLowerCase].
  - destruct (JS.isWhiteSpace c); reflexivity.
  - reflexivity.
Qed.

Lemma trim_lower s : JS.trim (JS.toLowerCase s) = JS.toLowerCase (JS.trim s).
Proof. unfold JS.trim. rewrite trimStart_lower, trimEnd_lower. reflexivity. Qed.

Lemma trimEnd_idem s : JS.trimEnd (JS.trimEnd s) = JS.trimEnd s.
Proof.
  induction s as [|c s IH]; [reflexivity|]. cbn [JS.trimEnd].
  destruct (JS.trimEnd s) as [|d r] eqn:E.
  - destruct (JS.isWhiteSpace c) eqn:W; [reflexivity|].
    cbn [JS.trimEnd]. rewrite W. reflexivity.
  - cbn [JS.trimEnd] in *. rewrite IH. reflexivity.
Qed.

(** A string that does not start with white space keeps its first
    character, hence that property, when its end is trimmed. *)
Lemma trimStart_trimEnd s :
  JS.trimStart s = s → JS.trimStart (JS.trimEnd s) = JS.trimEnd s.
Proof.
  destruct s as [|c s]; [reflexivity|]. cbn [JS.trimStart JS.trimEnd].
  destruct (JS.isWhiteSpace c) eqn:W.
  - intros H. exfalso. clear W.
    assert (L : ∀ u, (String.length (JS.trimStart u) <= String.length u)%nat).
    { induction u as [|d u IHu]; cbn [JS.trimStart]; [lia|].
      destruct (JS.isWhiteSpace d); cbn [String.length]; lia. }
    specialize (L s). rewrite H in L. cbn [String.length] in L. lia.
  - intros _. destruct (JS.trimEnd s); cbn [JS.trimStart]; rewrite W; reflexivity.
Qed.

Lemma trimStart_idem s : JS.trimStart (JS.trimStart s) = JS.trimStart s.
Proof.
  induction s as [|c s IH]; [reflexivity|]. cbn [JS.trimStart].
  destruct (JS.isWhiteSpace c) eqn:W; [exact IH|].
  cbn [JS.trimStart]. rewrite W. reflexivity.
Qed.

Lemma trim_idem s : JS.trim (JS.trim s) = JS.trim s.
Proof.
  unfold JS.trim.
  rewrite (trimStart_trimEnd (JS.trimStart s)) by apply trimStart_idem.
  apply trimEnd_idem.
Qed.

Lemma split_not_nil sep s : JS.split sep s ≠ [].
Proof.
  destruct s as [|c s]; cbn [JS.split]; [discriminate|].
  destruct (Ascii.eqb c sep); [discriminate|].
  destruct (JS.split sep s); discriminate.
Qed.

(** Splitting distributes over a separator. *)
Lemma split_app sep a b :
  JS.split sep (a +:+ String sep b) = JS.split sep a ++ JS.split sep b.
Proof.
  induction a as [|c a IH].
  - rewrite append_nil. cbn [JS.split]. rewrite Ascii.eqb_refl. reflexivity.
  - rewrite append_cons. cbn [JS.split]. rewrite IH.
    destruct (Ascii.eqb c sep); [reflexivity|].
    pose proof (split_not_nil sep a) as Hn.
    destruct (JS.split sep a); [congruence | reflexivity].
Qed.

End NormalForms.

(** ** ConfigParser: [parseMimeList] and composition of configuration strings *)

Section MimeList.

Lemma parseMimeList_truthy str :
  str ≠ "" →
  Workers.parseMimeList (Some str) =
  filter (λ t, t ≠ "") (map (λ t, JS.toLowerCase (JS.trim t)) (JS.split "," str)).
Proof.
  intros Hne. unfold Workers.parseMimeList.
  apply truthy_Some in Hne. rewrite Hne. reflexivity.
Qed.

Lemma append_not_empty a b : a ≠ "" → a +:+ b ≠ "".
Proof. destruct a; [congruence | discriminate]. Qed.

End MimeList.

(** X1: [parseMimeList] gives the empty list for an absent or empty
    string.  Otherwise its entries are exactly the non-empty lower-cased
    trimmed tokens of the string; every entry is non-empty, in lower case
    and without white space at either end. *)
Theorem parseMimeList_entries (mimeStr : option string) :
  (mimeStr = None ∨ mimeStr = Some "" → Workers.parseMimeList mimeStr = []) ∧
  (∀ str, mimeStr = Some str → str ≠ "" →
     ∀ t, In t (Workers.parseMimeList mimeStr) ↔
          t ≠ "" ∧ ∃ tok, In tok (JS.split "," str) ∧ t = JS.toLowerCase (JS.trim tok)) ∧
  (∀ t, In t (Workers.parseMimeList mimeStr) →
     t ≠ "" ∧ JS.toLowerCase t = t ∧ JS.trim t = t).
Proof.
  assert (Hmem : ∀ str, str ≠ "" →
     ∀ t, In t (Workers.parseMimeList (Some str)) ↔
          t ≠ "" ∧ ∃ tok, In tok (JS.split "," str) ∧ t = JS.toLowerCase (JS.trim tok)).
  { intros str Hne t. rewrite (parseMimeList_truthy _ Hne).
    rewrite <- list_elem_of_In, list_elem_of_filter, list_elem_of_In, in_map_iff.
    split.
    - intros [H1 (tok & <- & H2)]. split; [exact H1|]. exists tok. split; [exact H2 | reflexivity].
    - intros [H1 (tok & H2 & ->)]. split; [exact H1|]. exists tok. split; [reflexivity | exact H2]. }
  split; [|split].
  - intros [-> | ->]; reflexivity.
  - intros str -> Hne. apply Hmem, Hne.
  - intros t Hin. destruct mimeStr as [str|]; [|destruct Hin].
    destruct (string_dec str "") as [->|Hne]; [destruct Hin|].
    apply (Hmem _ Hne) in Hin as [H1 (tok & _ & ->)]. split; [exact H1|]. split.
    + apply toLowerCase_idem.
    + rewrite trim_lower, trim_idem. reflexivity.
Qed.

(** X2: joining two non-empty status-code strings with a comma
    concatenates their allow-lists. *)
Theorem parseNormalStatusCodes_concat (a b : string) :
  a ≠ "" → b ≠ "" →
  Workers.parseNormalStatusCodes (Some (a +:+ "," +:+ b)) =
  Workers.parseNormalStatusCodes (Some a) ++ Workers.parseNormalStatusCodes (Some b) ∧
  Index.parseNormalStatusCodes (Some (a +:+ "," +:+ b)) =
  Index.parseNormalStatusCodes (Some a) ++ Index.parseNormalStatusCodes (Some b).
Proof.
  intros Ha Hb.
  assert (Workers.parseNormalStatusCodes (Some (a +:+ "," +:+ b)) =
          Workers.parseNormalStatusCodes (Some a) ++
          Workers.parseNormalStatusCodes (Some b)); [|split; assumption].
  rewrite !parse_nonempty by (try apply append_not_empty; assumption).
  unfold tokenValues. change ("," +:+ b) with (String "," b).
  rewrite split_app, map_app. apply omap_app.
Qed.

Lemma parseNormalStatusCodes_concat_witness :
  Workers.parseNormalStatusCodes (Some ("200, 301" +:+ "," +:+ "abc,404")) =
  Workers.parseNormalStatusCodes (Some "200, 301") ++
  Workers.parseNormalStatusCodes (Some "abc,404").
Proof.
  apply (parseNormalStatusCodes_concat "200, 301" "abc,404"); discriminate.
Defined.

(** X3: joining two non-empty MIME lists with a comma concatenates the
    parsed lists, in order. *)
Theorem parseMimeList_concat (a b : string) :
  a ≠ "" → b ≠ "" →
  Workers.parseMimeList (Some (a +:+ "," +:+ b)) =
  Workers.parseMimeList (Some a) ++ Workers.parseMimeList (Some b).
Proof.
  intros Ha Hb.
  rewrite !parseMimeList_truthy by (try apply append_not_empty; assumption).
  change ("," +:+ b) with (String "," b).
  rewrite split_app, map_app. apply filter_app.
Qed.

Lemma parseMimeList_concat_witness :
  Workers.parseMimeList (Some ("image/, ,PDF" +:+ "," +:+ " text/x ")) =
  Workers.parseMimeList (Some "image/, ,PDF") ++ Workers.parseMimeList (Some " text/x ").
Proof.
  apply (parseMimeList_concat "image/, ,PDF" " text/x "); discriminate.
Defined.

(** ** RequestRewriter: when it fails, the URL and the headers *)

Section Sanitizing.

Lemma buildReq_inv request env reqData :
  Workers.buildReq request env = Some reqData →
  ∃ targetHost,
    GET_URL env = Some targetHost ∧ targetHost ≠ "" ∧
    url reqData = mkURL "https:" (HostSet targetHost (hostname (req_url request))) ""
                    (pathname (req_url request)) (search (req_url request))
                    (hash (req_url request)) ∧
    init_method (requestInit reqData) = req_method request ∧
    init_redirect (requestInit reqData) = "follow" ∧
    init_headers (requestInit reqData) =
      Headers.set "host" targetHost
        (fold_left (λ hs h, Headers.delete h hs) Workers.removeHeaders
           (req_headers request)).
Proof.
  unfold Workers.buildReq. destruct (GET_URL env) as [targetHost|]; [|discriminate].
  destruct (JS.truthy (Some targetHost)) eqn:T; [|discriminate]. cbn [negb].
  destruct (includesStr ["GET"; "HEAD"] (req_method request)); cbn [negb];
    intros [= <-]; exists targetHost; (split; [reflexivity|]);
    (split; [apply truthy_Some, T|]); repeat (split; [reflexivity|]); reflexivity.
Qed.


End Sanitizing.

(** X4: [buildReq] fails exactly when no upstream host is configured
    ([GET_URL] absent or empty); it never fails for another reason. *)
Theorem buildReq_fails_iff_unconfigured (request : Request) (env : Env) :
  (Workers.buildReq request env = None ↔ GET_URL env = None ∨ GET_URL env = Some "") ∧
  (Index.buildReq request env = None ↔ GET_URL env = None ∨ GET_URL env = Some "").
Proof.
  assert (Workers.buildReq request env = None
          ↔ GET_URL env = None ∨ GET_URL env = Some ""); [|split; assumption].
  split.
  - intros H. destruct (JS.truthy (GET_URL env)) eqn:T.
    + destruct (buildReq_configured request env T) as (t & d & _ & E & _). congruence.
    + destruct (GET_URL env) as [s|]; [|left; reflexivity]. right.
      destruct (string_dec s "") as [->|Hne]; [reflexivity|].
      apply truthy_Some in Hne. congruence.
  - intros [E|E]; apply buildReq_unconfigured; rewrite E; reflexivity.
Qed.

(** X5: the outbound URL is the inbound URL after the hostname setter was
    run with the upstream host (what host comes of it is up to the host
    parser of the URL standard), with the port cleared and the scheme
    forced to https; path, query and fragment are kept, the method is
    copied and redirects are followed. *)
Theorem buildReq_rewrites_url (request : Request) (env : Env) (reqData : ReqData) :
  Workers.buildReq request env = Some reqData →
  ∃ targetHost,
    GET_URL env = Some targetHost ∧
    hostname (url reqData) = HostSet targetHost (hostname (req_url request)) ∧
    port (url reqData) = "" ∧
    protocol (url reqData) = "https:" ∧
    pathname (url reqData) = pathname (req_url request) ∧
    search (url reqData) = search (req_url request) ∧
    hash (url reqData) = hash (req_url request) ∧
    init_method (requestInit reqData) = req_method request ∧
    init_redirect (requestInit reqData) = "follow".
Proof.
  intros H. destruct (buildReq_inv _ _ _ H) as (t & E & _ & U & M & R & _).
  exists t. rewrite U. repeat (split; [assumption || reflexivity|]). exact R.
Qed.

Lemma buildReq_rewrites_url_witness :
  ∃ reqData targetHost,
    Workers.buildReq samplePost sampleEnv = Some reqData ∧
    GET_URL sampleEnv = Some targetHost ∧
    hostname (url reqData) = HostSet targetHost (HostOf "proxy.example.net") ∧
    port (url reqData) = "" ∧
    protocol (url reqData) = "https:" ∧
    pathname (url reqData) = "/a.txt" ∧
    search (url reqData) = "?v=1".
Proof.
  destruct (Workers.buildReq samplePost sampleEnv) as [d|] eqn:E;
    [|vm_compute in E; discriminate E].
  destruct (buildReq_rewrites_url samplePost sampleEnv d E)
    as (t & H1 & H2 & H3 & H4 & H5 & H6 & _).
  exists d, t. repeat (split; [assumption || reflexivity|]). exact H6.
Defined.



(** ** ProxyOrchestrator: the calls to the upstream *)


(** X8: a transport failure is not caught: when the client fails on the
    rewritten request the handler rejects, and no response is made up. *)
Theorem transport_failure_propagates
    (request : Request) (env : Env) (net : Client) (d : ReqData) :
  Workers.buildReq request env = Some d →
  net (url d) (requestInit d) = None →
  fst (run net (Workers.getResponse request env)) = None ∧
  fst (run net (Index.getResponse request env)) = None.
Proof.
  intros E F.
  assert (T : JS.truthy (GET_URL env) = true).
  { destruct (JS.truthy (GET_URL env)) eqn:T; [reflexivity|].
    rewrite (buildReq_unconfigured _ _ T) in E. discriminate. }
  rewrite (getResponse_configured _ _ _ net T E).
  rewrite (Index_getResponse_configured _ _ d net T E).
  rewrite F. split; reflexivity.
Qed.

Lemma transport_failure_propagates_witness :
  fst (run unreachable (Workers.getResponse sampleGet sampleEnv)) = None ∧
  fst (run unreachable (Index.getResponse sampleGet sampleEnv)) = None.
Proof.
  destruct (Workers.buildReq sampleGet sampleEnv) as [d|] eqn:E;
    [|vm_compute in E; discriminate E].
  apply (transport_failure_propagates sampleGet sampleEnv unreachable d E).
  reflexivity.
Defined.

(** X9: when the upstream answers with a status in 200..599, the handler
    of workers.js always returns a response: the one its post-fetch code
    asks for, with the allow-list parsed from [NORMAL_STATUS_CODES].  So
    does the handler of index.js, unless the status is 204, 205 or 304. *)
Theorem handler_answers_transformed
    (request : Request) (env : Env) (net : Client) (d : ReqData) (r : Response) :
  Workers.buildReq request env = Some d →
  net (url d) (requestInit d) = Some r →
  inRange (status r) →
  fst (run net (Workers.getResponse request env)) =
    Some (Workers.transform env
            (Workers.parseNormalStatusCodes (NORMAL_STATUS_CODES env)) r) ∧
  (¬ In (status r) [204; 205; 304] →
   fst (run net (Index.getResponse request env)) =
     Some (Index.transform (Index.parseNormalStatusCodes (NORMAL_STATUS_CODES env)) r)).
Proof.
  intros E F R.
  assert (T : JS.truthy (GET_URL env) = true).
  { destruct (JS.truthy (GET_URL env)) eqn:T; [reflexivity|].
    rewrite (buildReq_unconfigured _ _ T) in E. discriminate. }
  rewrite (getResponse_configured _ _ _ net T E).
  rewrite (Index_getResponse_configured _ _ d net T E).
  rewrite F. cbn [mbind option_bind fst]. rewrite (Workers_accepted _ _ _ R).
  split; [reflexivity|]. intros Hn.
  rewrite construct_accepts; [reflexivity | |].
  - rewrite (proj2 (transform_status env _ r)). exact R.
  - right. rewrite (proj2 (transform_status env _ r)), (nullBodyStatus_in_range _ R).
    apply includesNum_not_In. unfold inRange in R. cbn in *. lia.
Qed.

Lemma handler_answers_transformed_witness :
  fst (run (answering (upstream 404 "text/html"))
         (Workers.getResponse sampleGet allow204Env)) =
    Some (Workers.transform allow204Env [200; 204] (upstream 404 "text/html")).
Proof.
  destruct (Workers.buildReq sampleGet allow204Env) as [d|] eqn:E;
    [|vm_compute in E; discriminate E].
  apply (handler_answers_transformed sampleGet allow204Env
           (answering (upstream 404 "text/html")) d (upstream 404 "text/html") E).
  - reflexivity.
  - unfold inRange. cbn. lia.
Defined.


(** ** ResponseTransformer: what is kept and what is dropped *)

Section Transformer.

Lemma includesNum_iff l l' x :
  (In x l ↔ In x l') → includesNum l x = includesNum l' x.
Proof.
  intros H. destruct (includesNum l x) eqn:E.
  - symmetry. apply includesNum_In, H, includesNum_In, E.
  - symmetry. apply includesNum_not_In. rewrite <- H. apply includesNum_not_In, E.
Qed.

Lemma getDisposition_env env env' contentType :
  FORCE_INLINE_TYPES env = FORCE_INLINE_TYPES env' →
  FORCE_DOWNLOAD_TYPES env = FORCE_DOWNLOAD_TYPES env' →
  Workers.getDisposition contentType env = Workers.getDisposition contentType env'.
Proof. intros H1 H2. unfold Workers.getDisposition. rewrite H1, H2. reflexivity. Qed.

End Transformer.

(** X11: whenever the handler returns a response, its status is the
    upstream status, on every branch (pass-through, bodiless, error page)
    and in both files; without an upstream host it is 500. *)
Theorem transform_mirrors_status
    (request : Request) (env : Env) (net : Client) (out : Response) :
  fst (run net (Workers.getResponse request env)) = Some out ∨
  fst (run net (Index.getResponse request env)) = Some out →
  (JS.truthy (GET_URL env) = false ∧ status out = 500) ∨
  (∃ d r, Workers.buildReq request env = Some d ∧
          net (url d) (requestInit d) = Some r ∧ status out = status r).
Proof.
  intros H. destruct (JS.truthy (GET_URL env)) eqn:T.
  - right. destruct (buildReq_configured request env T) as (t & d & _ & E & _).
    rewrite (getResponse_configured _ _ _ net T E) in H.
    rewrite (Index_getResponse_configured _ _ d net T E) in H.
    cbn [fst] in H. exists d.
    destruct (net (url d) (requestInit d)) as [r|];
      [|destruct H as [H|H]; discriminate H].
    exists r. split; [exact E|]. split; [reflexivity|]. cbn [mbind option_bind] in H.
    destruct H as [H|H].
    + destruct (construct (Workers.transform _ _ r)) as [o|e] eqn:C; [|discriminate H].
      injection H as ->. apply construct_Normal in C as (-> & _).
      apply transform_status.
    + destruct (construct (Index.transform _ r)) as [o|e] eqn:C; [|discriminate H].
      injection H as ->. apply construct_Normal in C as (-> & _).
      apply (transform_status env).
  - left. split; [reflexivity|].
    unfold Workers.getResponse, Index.getResponse in H. rewrite T in H.
    destruct H as [H|H]; injection H as <-; reflexivity.
Qed.

Lemma transform_mirrors_status_witness :
  (JS.truthy (GET_URL sampleEnv) = false ∧
   status (Workers.generateErrorPage 403 None) = 500) ∨
  (∃ d r, Workers.buildReq sampleGet sampleEnv = Some d ∧
          answering (upstream 403 "text/html") (url d) (requestInit d) = Some r ∧
          status (Workers.generateErrorPage 403 None) = status r).
Proof.
  apply (transform_mirrors_status sampleGet sampleEnv (answering (upstream 403 "text/html"))
           (Workers.generateErrorPage 403 None)).
  left. vm_compute. reflexivity.
Defined.

(** X12: workers.js never sends a body with status 101, 204, 205 or 304,
    whether or not the status is in the allow-list. *)
Theorem bodiless_status_has_no_body (env : Env) (allowed : list Z) (response : Response) :
  In (status response) [101; 204; 205; 304] →
  body (Workers.transform env allowed response) = None.
Proof.
  intros H. change [101; 204; 205; 304] with Workers.NULL_BODY_STATUS_CODES in H.
  apply includesNum_In in H. unfold Workers.transform.
  destruct (includesNum allowed (status response)); cbn [negb]; rewrite H; reflexivity.
Qed.

Lemma bodiless_status_has_no_body_witness :
  body (Workers.transform sampleEnv [200; 204] (upstream 204 "text/html")) = None.
Proof.
  apply (bodiless_status_has_no_body sampleEnv [200; 204] (upstream 204 "text/html")).
  right. left. reflexivity.
Defined.

(** X13: on the pass-through the status text and every header other than
    Content-Type and Content-Disposition are those of the upstream
    response, and so is the body unless the status is a bodiless code. *)
Theorem pass_through_keeps_upstream (env : Env) (allowed : list Z) (response : Response) :
  In (status response) allowed →
  statusText (Workers.transform env allowed response) = statusText response ∧
  (¬ In (status response) [101; 204; 205; 304] →
   body (Workers.transform env allowed response) = body response) ∧
  (∀ name,
     JS.toLowerCase name ≠ "content-type" →
     JS.toLowerCase name ≠ "content-disposition" →
     Headers.get name (headers (Workers.transform env allowed response))
       = Headers.get name (headers response)).
Proof.
  intros H. pose proof H as Hb. apply includesNum_In in Hb.
  unfold Workers.transform. rewrite Hb. cbn [negb statusText body headers status].
  split; [reflexivity|]. split.
  - intros Hn. change [101; 204; 205; 304] with Workers.NULL_BODY_STATUS_CODES in Hn.
    apply includesNum_not_In in Hn. rewrite Hn. reflexivity.
  - intros name H1 H2. rewrite get_set_other by (intros E; apply H2; rewrite <- E; reflexivity).
    destruct (Headers.get "Content-Type" (headers response)) as [ct|]; [|reflexivity].
    destruct (JS.truthy (Some ct) && JS.startsWith ct "text/"); [|reflexivity].
    apply get_set_other. intros E; apply H1; rewrite <- E; reflexivity.
Qed.

Lemma pass_through_keeps_upstream_witness :
  statusText (Workers.transform sampleEnv [200] (upstream 200 "text/html")) = "" ∧
  body (Workers.transform sampleEnv [200] (upstream 200 "text/html")) = Some (Stream 1) ∧
  Headers.get "ETag" (headers (Workers.transform sampleEnv [200] (upstream 200 "text/html")))
    = Headers.get "ETag" (headers (upstream 200 "text/html")).
Proof.
  destruct (pass_through_keeps_upstream sampleEnv [200] (upstream 200 "text/html"))
    as (H1 & H2 & H3).
  - left. reflexivity.
  - split; [exact H1|]. split.
    + apply H2. cbn. lia.
    + apply H3; discriminate.
Defined.

(** X14: the transformer uses the allow-list only to test the upstream
    status for membership, and the environment only through the two
    override lists: order and repetitions in the allow-list, [GET_URL] and
    [NORMAL_STATUS_CODES] play no part. *)
Theorem transform_depends_on_membership
    (env env' : Env) (allowed allowed' : list Z) (response : Response) :
  FORCE_INLINE_TYPES env = FORCE_INLINE_TYPES env' →
  FORCE_DOWNLOAD_TYPES env = FORCE_DOWNLOAD_TYPES env' →
  (In (status response) allowed ↔ In (status response) allowed') →
  Workers.transform env allowed response = Workers.transform env' allowed' response ∧
  Index.transform allowed response = Index.transform allowed' response.
Proof.
  intros H1 H2 Hm. unfold Workers.transform, Index.transform.
  rewrite (includesNum_iff _ _ _ Hm).
  rewrite (getDisposition_env env env' _ H1 H2). split; reflexivity.
Qed.

Lemma transform_depends_on_membership_witness :
  Workers.transform sampleEnv [200; 204] (upstream 204 "image/png")
    = Workers.transform allow204Env [204; 204; 500] (upstream 204 "image/png").
Proof.
  apply (transform_depends_on_membership sampleEnv allow204Env [200; 204] [204; 204; 500]
           (upstream 204 "image/png")).
  - reflexivity.
  - reflexivity.
  - cbn. split; intros _; tauto.
Defined.

(** X15: for a status outside the allow-list the outbound response is a
    function of the status alone: nothing of the upstream headers, status
    text or body, and nothing of the environment, reaches the caller. *)
Theorem rejected_response_depends_on_status
    (env env' : Env) (allowed : list Z) (r r' : Response) :
  ¬ In (status r) allowed →
  status r = status r' →
  Workers.transform env allowed r = Workers.transform env' allowed r' ∧
  Index.transform allowed r = Index.transform allowed r'.
Proof.
  intros H E. unfold Workers.transform, Index.transform. rewrite <- E.
  apply includesNum_not_In in H. rewrite H. split; reflexivity.
Qed.

Lemma rejected_response_depends_on_status_witness :
  Workers.transform sampleEnv [200] (upstream 403 "text/html")
    = Workers.transform charsetDownloadEnv [200]
        (mkResponse 403 "Forbidden" (Headers.set "Set-Cookie" "id=1" ∅) None).
Proof.
  apply (rejected_response_depends_on_status sampleEnv charsetDownloadEnv [200]
           (upstream 403 "text/html")
           (mkResponse 403 "Forbidden" (Headers.set "Set-Cookie" "id=1" ∅) None)).
  - cbn. lia.
  - reflexivity.
Defined.

(** ** DispositionPolicy and the error page *)

(** X16: the disposition does not depend on the case of the
    content-type: a content-type and its lower-cased form get the same
    answer. *)
Theorem getDisposition_ignores_case (contentType : option string) (env : Env) :
  Workers.getDisposition (JS.toLowerCase <$> contentType) env
  = Workers.getDisposition contentType env.
Proof.
  destruct contentType as [ct|]; [|reflexivity]. cbn [fmap option_fmap option_map].
  destruct (string_dec ct "") as [->|Hne]; [reflexivity|].
  assert (Hl : JS.toLowerCase ct ≠ "") by (intros H; apply Hne, toLowerCase_empty, H).
  rewrite (getDisposition_bool _ _ Hne), (getDisposition_bool _ _ Hl), toLowerCase_idem.
  reflexivity.
Qed.

(** X17: the error page always carries exactly one header, Content-Type
    [text/html; charset=utf-8], and a body.  With a non-empty message its
    status is 500 and nothing of the status code passed in shows; with no
    message, or an empty one, its status is the status code and the text
    is the not-found one exactly for 404. *)
Theorem generateErrorPage_shape (statusCode : Z) (customMessage : option string) :
  headers (Workers.generateErrorPage statusCode customMessage)
    = Headers.set "Content-Type" "text/html; charset=utf-8" ∅ ∧
  (JS.truthy customMessage = true →
   status (Workers.generateErrorPage statusCode customMessage) = 500 ∧
   Workers.generateErrorPage statusCode customMessage
     = Workers.generateErrorPage 0 customMessage ∧
   ∃ m, customMessage = Some m ∧
        body (Workers.generateErrorPage statusCode customMessage)
          = Some (Html ["配置错误"; "!"; "配置错误"; m])) ∧
  (JS.truthy customMessage = false →
   status (Workers.generateErrorPage statusCode customMessage) = statusCode ∧
   Workers.generateErrorPage statusCode customMessage
     = Workers.generateErrorPage statusCode None ∧
   ∃ title mark heading,
     body (Workers.generateErrorPage statusCode customMessage)
       = Some (Html [title; mark; heading;
                     if statusCode =? 404 then Workers.MSG_NOT_FOUND
                     else Workers.MSG_UNAVAILABLE])).
Proof.
  split; [reflexivity|]. unfold Workers.generateErrorPage. split; intros T; rewrite T.
  - destruct customMessage as [m|]; [|discriminate T].
    split; [reflexivity|]. split; [reflexivity|]. exists m. split; reflexivity.
  - split; [reflexivity|]. split.
    + destruct customMessage as [m|]; reflexivity.
    + eexists _, _, _. destruct customMessage as [m|]; reflexivity.
Qed.

Lemma generateErrorPage_shape_witness :
  status (Workers.generateErrorPage 404 (Some "")) = 404 ∧
  Workers.generateErrorPage 404 (Some "") = Workers.generateErrorPage 404 None.
Proof.
  destruct (proj2 (proj2 (generateErrorPage_shape 404 (Some ""))) eq_refl)
    as (H1 & H2 & _).
  split; [exact H1 | exact H2].
Defined.

(** ** index.js: the preview rule *)

Section Preview.

Lemma shouldPreview_spec contentType :
  Index.shouldPreview contentType = true ↔ previewable contentType.
Proof.
  unfold Index.shouldPreview, previewable. destruct contentType as [ct|].
  - destruct (string_dec ct "") as [->|Hne].
    + split; [discriminate|]. intros (ct & [= <-] & t & Hin & Hc).
      apply contains_empty in Hc. subst t. cbn in Hin. intuition discriminate.
    + apply truthy_Some in Hne. rewrite Hne. cbn [negb].
      rewrite overrideMatches_existsb. split.
      * intros H. exists ct. split; [reflexivity | exact H].
      * intros (ct' & [= <-] & H). exact H.
  - split; [discriminate|]. intros (ct & [=] & _).
Qed.

End Preview.

(** X18: on an allowed response index.js answers [inline] and appends
    [; charset=utf-8] to the Content-Type exactly when the content-type is
    present and contains, as written (no lower-casing), one of [text/],
    [image/], [application/json], [application/xml],
    [application/javascript]; otherwise it answers [attachment] and
    leaves the Content-Type alone. *)
Theorem Index_preview_rule (allowed : list Z) (response : Response) :
  In (status response) allowed →
  (previewable (Headers.get "Content-Type" (headers response)) →
   Headers.get "Content-Disposition" (headers (Index.transform allowed response))
     = Some "inline" ∧
   Headers.get "Content-Type" (headers (Index.transform allowed response))
     = (λ ct, ct +:+ "; charset=utf-8") <$> Headers.get "Content-Type" (headers response)) ∧
  (¬ previewable (Headers.get "Content-Type" (headers response)) →
   Headers.get "Content-Disposition" (headers (Index.transform allowed response))
     = Some "attachment" ∧
   Headers.get "Content-Type" (headers (Index.transform allowed response))
     = Headers.get "Content-Type" (headers response)).
Proof.
  intros H. apply includesNum_In in H. unfold Index.transform. rewrite H.
  cbn [negb headers]. rewrite !get_set_same, !get_set_other by apply names_differ.
  pose proof (shouldPreview_spec (Headers.get "Content-Type" (headers response))) as S.
  destruct (Index.shouldPreview (Headers.get "Content-Type" (headers response))).
  - split; [|intros Hn; exfalso; apply Hn, S; reflexivity].
    intros _. split; [reflexivity|].
    destruct (Headers.get "Content-Type" (headers response)) as [ct|] eqn:E.
    + rewrite get_set_same. reflexivity.
    + exact E.
  - split; [intros Hp; apply S in Hp; discriminate Hp|].
    intros _. split; [reflexivity|].
    destruct (Headers.get "Content-Type" (headers response)) eqn:E; exact E.
Qed.

Lemma Index_preview_rule_witness :
  Headers.get "Content-Disposition"
    (headers (Index.transform [200] (upstream 200 "Text/HTML"))) = Some "attachment" ∧
  Headers.get "Content-Type"
    (headers (Index.transform [200] (upstream 200 "Text/HTML"))) = Some "Text/HTML".
Proof.
  apply (Index_preview_rule [200] (upstream 200 "Text/HTML")).
  - left. reflexivity.
  - intros H. apply shouldPreview_spec in H. vm_compute in H. discriminate H.
Defined.

(** ** Where the two files agree *)

Section Agreement.

Lemma toLowerCase_app a b :
  JS.toLowerCase (a +:+ b) = JS.toLowerCase a +:+ JS.toLowerCase b.
Proof.
  induction a as [|c a IH]; [reflexivity|].
  rewrite append_cons. cbn [JS.toLowerCase]. rewrite append_cons, IH. reflexivity.
Qed.

Lemma beginsWith_text_lower ct :
  beginsWith ct "text/" → JS.startsWith (JS.toLowerCase ct) "text/" = true.
Proof.
  intros [r ->]. apply startsWith_spec. exists (JS.toLowerCase r).
  rewrite toLowerCase_app. reflexivity.
Qed.

End Agreement.

(** X19: the two files render the same error page up to the template:
    same status, same headers, and the holes of index.js are those of
    workers.js followed by the retry block, which is empty exactly when a
    message was given. *)
Theorem error_pages_agree (statusCode : Z) (customMessage : option string) :
  status (Index.generateErrorPage statusCode customMessage)
    = status (Workers.generateErrorPage statusCode customMessage) ∧
  headers (Index.generateErrorPage statusCode customMessage)
    = headers (Workers.generateErrorPage statusCode customMessage) ∧
  ∃ holes,
    body (Workers.generateErrorPage statusCode customMessage) = Some (Html holes) ∧
    body (Index.generateErrorPage statusCode customMessage)
      = Some (Html (holes ++ [if JS.truthy customMessage then "" else Index.RETRY_BLOCK])).
Proof.
  split; [reflexivity|]. split; [reflexivity|]. eexists. split; reflexivity.
Qed.

(** X20: with no override list configured, the two files give the same
    response for an allowed status that is not a bodiless code when the
    content-type starts with [text/]: inline, charset appended. *)
Theorem variants_agree_on_text
    (env : Env) (allowed : list Z) (response : Response) (ct : string) :
  FORCE_INLINE_TYPES env = None →
  FORCE_DOWNLOAD_TYPES env = None →
  In (status response) allowed →
  ¬ In (status response) [101; 204; 205; 304] →
  Headers.get "Content-Type" (headers response) = Some ct →
  beginsWith ct "text/" →
  Workers.transform env allowed response = Index.transform allowed response ∧
  Headers.get "Content-Disposition" (headers (Index.transform allowed response))
    = Some "inline" ∧
  Headers.get "Content-Type" (headers (Index.transform allowed response))
    = Some (ct +:+ "; charset=utf-8").
Proof.
  intros Hi Hd Ha Hn Hct Hb.
  assert (Hne : ct ≠ "") by (destruct Hb as [r ->]; discriminate).
  assert (Hp : Index.shouldPreview (Some ct) = true).
  { apply shouldPreview_spec. exists ct. split; [reflexivity|].
    exists "text/". split; [left; reflexivity|].
    destruct Hb as [r ->]. exists "", r. reflexivity. }
  assert (Hw : Workers.getDisposition (Some ct) env = "inline").
  { rewrite (getDisposition_bool _ _ Hne). unfold builtinInlineb.
    rewrite Hi, Hd, (beginsWith_text_lower _ Hb). cbn [Workers.parseMimeList existsb].
    rewrite orb_true_r. reflexivity. }
  apply includesNum_In in Ha.
  change [101; 204; 205; 304] with Workers.NULL_BODY_STATUS_CODES in Hn.
  apply includesNum_not_In in Hn.
  assert (Hs : JS.startsWith ct "text/" = true) by (apply startsWith_spec, Hb).
  assert (Ht : JS.truthy (Some ct) = true) by (apply truthy_Some, Hne).
  unfold Workers.transform, Index.transform.
  rewrite Ha, Hn. cbn [negb headers status statusText body].
  rewrite Hct, Hp, Hw, Hs, Ht. cbn [andb].
  split; [reflexivity|]. split.
  - apply get_set_same.
  - rewrite get_set_other by apply names_differ. apply get_set_same.
Qed.

Lemma variants_agree_on_text_witness :
  Workers.transform sampleEnv [200] (upstream 200 "text/plain")
    = Index.transform [200] (upstream 200 "text/plain").
Proof.
  apply (variants_agree_on_text sampleEnv [200] (upstream 200 "text/plain") "text/plain").
  - reflexivity.
  - reflexivity.
  - left. reflexivity.
  - cbn. lia.
  - reflexivity.
  - exists "plain". reflexivity.
Defined.

(** ** What workers.js answers within 200..599 *)

(** X21: for an upstream status in 200..599 outside the allow-list,
    workers.js returns a response with that status, no header and no body
    when the status is 204, 205 or 304, and the rendered error page with
    that status otherwise; index.js returns its error page in the latter
    case. *)
Theorem rejected_status_answer (env : Env) (allowed : list Z) (response : Response) :
  ¬ In (status response) allowed →
  inRange (status response) →
  (In (status response) [204; 205; 304] →
   answered (construct (Workers.transform env allowed response))
     = Some (mkResponse (status response) "" ∅ None)) ∧
  (¬ In (status response) [204; 205; 304] →
   answered (construct (Workers.transform env allowed response))
     = Some (Workers.generateErrorPage (status response) None) ∧
   status (Workers.generateErrorPage (status response) None) = status response ∧
   answered (construct (Index.transform allowed response))
     = Some (Index.generateErrorPage (status response) None)).
Proof.
  intros Ha R. rewrite (Workers_accepted _ _ _ R). cbn [answered].
  destruct (transform_rejected env allowed response Ha) as (H1 & H2 & H3). split.
  - intros Hn. rewrite H1; [reflexivity | right; exact Hn].
  - intros Hn.
    assert (Hn' : ¬ In (status response) [101; 204; 205; 304]).
    { unfold inRange in R. cbn in *. lia. }
    rewrite (H2 Hn'). split; [reflexivity|]. split; [reflexivity|].
    rewrite construct_accepts; [rewrite H3; reflexivity | |].
    + rewrite (proj2 (transform_status env allowed response)). exact R.
    + right. rewrite (proj2 (transform_status env allowed response)).
      rewrite (nullBodyStatus_in_range _ R). apply includesNum_not_In. exact Hn'.
Qed.

Lemma rejected_status_answer_witness :
  answered (construct (Workers.transform sampleEnv [200] (upstream 304 "text/html")))
    = Some (mkResponse 304 "" ∅ None) ∧
  answered (construct (Workers.transform sampleEnv [200] (upstream 403 "text/html")))
    = Some (Workers.generateErrorPage 403 None).
Proof.
  split.
  - apply (rejected_status_answer sampleEnv [200] (upstream 304 "text/html")).
    + cbn. lia.
    + unfold inRange. cbn. lia.
    + cbn. tauto.
  - apply (rejected_status_answer sampleEnv [200] (upstream 403 "text/html")).
    + cbn. lia.
    + unfold inRange. cbn. lia.
    + cbn. lia.
Defined.

(** X22: for an upstream status in 200..599 workers.js returns a
    response, which is of exactly one of the three kinds pass-through,
    bodiless and error page; it has a Content-Disposition header exactly
    when it is the pass-through, which it is exactly for an allowed
    status. *)
Theorem one_outcome_in_range (env : Env) (allowed : list Z) (response : Response) :
  inRange (status response) →
  ∃ out,
    answered (construct (Workers.transform env allowed response)) = Some out ∧
    (passesThrough env response out ∧ ¬ isBodiless response out ∧ ¬ isErrorPage response out
     ∨ ¬ passesThrough env response out ∧ isBodiless response out ∧ ¬ isErrorPage response out
     ∨ ¬ passesThrough env response out ∧ ¬ isBodiless response out ∧ isErrorPage response out) ∧
    (hasDisposition out ↔ passesThrough env response out) ∧
    (passesThrough env response out ↔ In (status response) allowed).
Proof.
  intros R. exists (Workers.transform env allowed response).
  rewrite (Workers_accepted _ _ _ R). split; [reflexivity|].
  apply transform_outcome.
Qed.

Lemma one_outcome_in_range_witness :
  ∃ out,
    answered (construct (Workers.transform sampleEnv [200] (upstream 200 "image/png")))
      = Some out ∧
    hasDisposition out.
Proof.
  destruct (one_outcome_in_range sampleEnv [200] (upstream 200 "image/png"))
    as (out & H1 & _ & H2 & H3).
  - unfold inRange. cbn. lia.
  - exists out. split; [exact H1|]. apply H2, H3. left. reflexivity.
Defined.
